(** * Hunt Map: the UI state machine of the map view, the sidebar and the app shell

    A shallow embedding of [App.tsx], [components/Map.tsx] and
    [components/Sidebar.tsx].  React state hooks become record fields, event
    handlers become state transformers, and the JSX that the claims talk about
    (sources and layers of the map, the feature popup, the distance display,
    the sidebar toggles) becomes functions from the state to plain data.

    JavaScript numbers are IEEE 754 binary64 values: [PrimFloat.float]. *)

From Stdlib Require Import List String Ascii Bool Arith Lia PrimFloat.
Import ListNotations.
Open Scope string_scope.
Open Scope list_scope.

Set Implicit Arguments.
Set Warnings "-inexact-float".

(** ** JavaScript values that occur as GeoJSON feature properties *)

Module Js.

Definition number := PrimFloat.float.

Inductive value : Type :=
| Null
| Boolean (b : bool)
| Number (x : number)
| Str (s : string).

(** ToBoolean on a property value; [None] is [undefined]. *)
Definition truthy (v : option value) : bool :=
  match v with
  | None => false
  | Some Null => false
  | Some (Boolean b) => b
  | Some (Number x) => negb (PrimFloat.is_zero x || PrimFloat.is_nan x)
  | Some (Str s) => negb (String.eqb s "")
  end.

(** [v || null], with [None] standing for [null] in the result. *)
Definition or_null (v : option value) : option value :=
  if truthy v then v else None.

(** An object as the list of its own enumerable entries, in the order in
    which [Object.entries] lists them. *)
Definition object := list (string * value).

Fixpoint get (o : object) (k : string) : option value :=
  match o with
  | [] => None
  | (k', v) :: o' => if String.eqb k' k then Some v else get o' k
  end.

Definition entries (o : object) : list (string * value) := o.

(** [s.replace(/pat/g, rep)] for a literal, non-empty pattern: matches are
    taken left to right and do not overlap.  [skip] counts the characters of
    the current match that are still to be dropped. *)
Fixpoint replace_from (pat rep : string) (skip : nat) (s : string) : string :=
  match s with
  | EmptyString => EmptyString
  | String c s' =>
      match skip with
      | S k => replace_from pat rep k s'
      | O =>
          if String.prefix pat s
          then (rep ++ replace_from pat rep (String.length pat - 1) s')%string
          else String c (replace_from pat rep 0 s')
      end
  end.

Definition replace_all (pat rep s : string) : string :=
  replace_from pat rep 0 s.

End Js.

(** ** App.tsx *)

Definition STYLE_TERRAIN : string := "mapbox://styles/mapbox/outdoors-v12".
Definition STYLE_SATELLITE : string :=
  "mapbox://styles/cjlinville/cmljzr1ps004l01sp15xj9941".

(** The state hooks of [App]. *)
Record AppState : Type := mkApp {
  mapStyle : string;
  showLocalDistricts : bool;
  showNHD : bool;
  showMTRoads : bool;
  showTrails : bool;
  showPublicLands : bool;
  showNAIP : bool;
  naipYear : string;
  showBHS : bool;
  showElevationBands : bool;
  showSlopeMask : bool;
  showParcels : bool;
  showHabitatSuitability : bool;
  isSidebarOpen : bool
}.

Definition App_init : AppState :=
  {| mapStyle := STYLE_TERRAIN;
     showLocalDistricts := true;
     showNHD := true;
     showMTRoads := true;
     showTrails := true;
     showPublicLands := true;
     showNAIP := false;
     naipYear := "2023";
     showBHS := false;
     showElevationBands := false;
     showSlopeMask := false;
     showParcels := false;
     showHabitatSuitability := false;
     isSidebarOpen := false |}.

Definition setMapStyle (v : string) (a : AppState) : AppState :=
  mkApp v (showLocalDistricts a) (showNHD a) (showMTRoads a) (showTrails a)
        (showPublicLands a) (showNAIP a) (naipYear a) (showBHS a)
        (showElevationBands a) (showSlopeMask a) (showParcels a)
        (showHabitatSuitability a) (isSidebarOpen a).

Definition setShowLocalDistricts (v : bool) (a : AppState) : AppState :=
  mkApp (mapStyle a) v (showNHD a) (showMTRoads a) (showTrails a)
        (showPublicLands a) (showNAIP a) (naipYear a) (showBHS a)
        (showElevationBands a) (showSlopeMask a) (showParcels a)
        (showHabitatSuitability a) (isSidebarOpen a).

Definition setShowNHD (v : bool) (a : AppState) : AppState :=
  mkApp (mapStyle a) (showLocalDistricts a) v (showMTRoads a) (showTrails a)
        (showPublicLands a) (showNAIP a) (naipYear a) (showBHS a)
        (showElevationBands a) (showSlopeMask a) (showParcels a)
        (showHabitatSuitability a) (isSidebarOpen a).

Definition setShowMTRoads (v : bool) (a : AppState) : AppState :=
  mkApp (mapStyle a) (showLocalDistricts a) (showNHD a) v (showTrails a)
        (showPublicLands a) (showNAIP a) (naipYear a) (showBHS a)
        (showElevationBands a) (showSlopeMask a) (showParcels a)
        (showHabitatSuitability a) (isSidebarOpen a).

Definition setShowTrails (v : bool) (a : AppState) : AppState :=
  mkApp (mapStyle a) (showLocalDistricts a) (showNHD a) (showMTRoads a) v
        (showPublicLands a) (showNAIP a) (naipYear a) (showBHS a)
        (showElevationBands a) (showSlopeMask a) (showParcels a)
        (showHabitatSuitability a) (isSidebarOpen a).

Definition setShowPublicLands (v : bool) (a : AppState) : AppState :=
  mkApp (mapStyle a) (showLocalDistricts a) (showNHD a) (showMTRoads a)
        (showTrails a) v (showNAIP a) (naipYear a) (showBHS a)
        (showElevationBands a) (showSlopeMask a) (showParcels a)
        (showHabitatSuitability a) (isSidebarOpen a).

Definition setShowNAIP (v : bool) (a : AppState) : AppState :=
  mkApp (mapStyle a) (showLocalDistricts a) (showNHD a) (showMTRoads a)
        (showTrails a) (showPublicLands a) v (naipYear a) (showBHS a)
        (showElevationBands a) (showSlopeMask a) (showParcels a)
        (showHabitatSuitability a) (isSidebarOpen a).

Definition setNaipYear (v : string) (a : AppState) : AppState :=
  mkApp (mapStyle a) (showLocalDistricts a) (showNHD a) (showMTRoads a)
        (showTrails a) (showPublicLands a) (showNAIP a) v (showBHS a)
        (showElevationBands a) (showSlopeMask a) (showParcels a)
        (showHabitatSuitability a) (isSidebarOpen a).

Definition setShowBHS (v : bool) (a : AppState) : AppState :=
  mkApp (mapStyle a) (showLocalDistricts a) (showNHD a) (showMTRoads a)
        (showTrails a) (showPublicLands a) (showNAIP a) (naipYear a) v
        (showElevationBands a) (showSlopeMask a) (showParcels a)
        (showHabitatSuitability a) (isSidebarOpen a).

Definition setShowElevationBands (v : bool) (a : AppState) : AppState :=
  mkApp (mapStyle a) (showLocalDistricts a) (showNHD a) (showMTRoads a)
        (showTrails a) (showPublicLands a) (showNAIP a) (naipYear a)
        (showBHS a) v (showSlopeMask a) (showParcels a)
        (showHabitatSuitability a) (isSidebarOpen a).

Definition setShowSlopeMask (v : bool) (a : AppState) : AppState :=
  mkApp (mapStyle a) (showLocalDistricts a) (showNHD a) (showMTRoads a)
        (showTrails a) (showPublicLands a) (showNAIP a) (naipYear a)
        (showBHS a) (showElevationBands a) v (showParcels a)
        (showHabitatSuitability a) (isSidebarOpen a).

Definition setShowParcels (v : bool) (a : AppState) : AppState :=
  mkApp (mapStyle a) (showLocalDistricts a) (showNHD a) (showMTRoads a)
        (showTrails a) (showPublicLands a) (showNAIP a) (naipYear a)
        (showBHS a) (showElevationBands a) (showSlopeMask a) v
        (showHabitatSuitability a) (isSidebarOpen a).

Definition setShowHabitatSuitability (v : bool) (a : AppState) : AppState :=
  mkApp (mapStyle a) (showLocalDistricts a) (showNHD a) (showMTRoads a)
        (showTrails a) (showPublicLands a) (showNAIP a) (naipYear a)
        (showBHS a) (showElevationBands a) (showSlopeMask a) (showParcels a)
        v (isSidebarOpen a).

Definition setIsSidebarOpen (v : bool) (a : AppState) : AppState :=
  mkApp (mapStyle a) (showLocalDistricts a) (showNHD a) (showMTRoads a)
        (showTrails a) (showPublicLands a) (showNAIP a) (naipYear a)
        (showBHS a) (showElevationBands a) (showSlopeMask a) (showParcels a)
        (showHabitatSuitability a) v.

(** ** components/Map.tsx: data *)

Record LngLat : Type := mkLngLat { lng : Js.number; lat : Js.number }.

(** A rendered feature as the click event carries it: [feature.layer.id] and
    [feature.properties]. *)
Record Feature : Type := mkFeature {
  layer_id : string;
  properties : Js.object
}.

(** The map click event; [features] is [undefined] when no interactive layer
    was queried. *)
Record ClickEvent : Type := mkClick {
  features : option (list Feature);
  lngLat : LngLat
}.

Record PopupInfo : Type := mkPopupInfo {
  feature : Feature;
  popupLngLat : LngLat
}.

Record SuitabilityMeta : Type := mkMeta {
  bounds : list (list Js.number);
  url : string
}.

Inductive MeasurementUnit : Type := miles | yards.

Record ViewState : Type := mkView {
  longitude : Js.number;
  latitude : Js.number;
  zoom : Js.number
}.

(** [styleLoadTimer.current]: [null], the handle of a timeout that is still
    pending, or the stale handle of a timeout that [clearTimeout] cancelled
    (the ref is not reset by [toggleMapStyle]). *)
Inductive TimerRef : Type := TimerNull | TimerPending | TimerCancelled.

Definition timer_set (t : TimerRef) : bool :=
  match t with TimerNull => false | _ => true end.

(** The state hooks and refs of [MapComponent]. *)
Record MapState : Type := mkMap {
  cursorCoords : option LngLat;
  popupInfo : option PopupInfo;
  cursor : string;
  suitabilityMeta : option SuitabilityMeta;
  selectedTrailName : option Js.value;
  isMeasuring : bool;
  measurementPoints : list (list Js.number);
  measurementUnit : MeasurementUnit;
  isStyleLoaded : bool;
  styleLoadTimer : TimerRef;
  initialViewState : ViewState
}.

Definition Map_init : MapState :=
  {| cursorCoords := None;
     popupInfo := None;
     cursor := "auto";
     suitabilityMeta := None;
     selectedTrailName := None;
     isMeasuring := false;
     measurementPoints := [];
     measurementUnit := miles;
     isStyleLoaded := false;
     styleLoadTimer := TimerNull;
     initialViewState :=
       {| longitude := (-114.85)%float; latitude := 48.86%float;
          zoom := 11%float |} |}.

Definition setCursorCoords (v : option LngLat) (m : MapState) : MapState :=
  mkMap v (popupInfo m) (cursor m) (suitabilityMeta m) (selectedTrailName m)
        (isMeasuring m) (measurementPoints m) (measurementUnit m)
        (isStyleLoaded m) (styleLoadTimer m) (initialViewState m).

Definition setPopupInfo (v : option PopupInfo) (m : MapState) : MapState :=
  mkMap (cursorCoords m) v (cursor m) (suitabilityMeta m)
        (selectedTrailName m) (isMeasuring m) (measurementPoints m)
        (measurementUnit m) (isStyleLoaded m) (styleLoadTimer m)
        (initialViewState m).

Definition setCursor (v : string) (m : MapState) : MapState :=
  mkMap (cursorCoords m) (popupInfo m) v (suitabilityMeta m)
        (selectedTrailName m) (isMeasuring m) (measurementPoints m)
        (measurementUnit m) (isStyleLoaded m) (styleLoadTimer m)
        (initialViewState m).

Definition setSuitabilityMeta (v : option SuitabilityMeta) (m : MapState)
  : MapState :=
  mkMap (cursorCoords m) (popupInfo m) (cursor m) v (selectedTrailName m)
        (isMeasuring m) (measurementPoints m) (measurementUnit m)
        (isStyleLoaded m) (styleLoadTimer m) (initialViewState m).

Definition setSelectedTrailName (v : option Js.value) (m : MapState)
  : MapState :=
  mkMap (cursorCoords m) (popupInfo m) (cursor m) (suitabilityMeta m) v
        (isMeasuring m) (measurementPoints m) (measurementUnit m)
        (isStyleLoaded m) (styleLoadTimer m) (initialViewState m).

Definition setIsMeasuring (v : bool) (m : MapState) : MapState :=
  mkMap (cursorCoords m) (popupInfo m) (cursor m) (suitabilityMeta m)
        (selectedTrailName m) v (measurementPoints m) (measurementUnit m)
        (isStyleLoaded m) (styleLoadTimer m) (initialViewState m).

(** [setMeasurementPoints] takes an updater, as in [prev => [...prev, pt]];
    a plain value is the constant updater. *)
Definition setMeasurementPoints
  (f : list (list Js.number) -> list (list Js.number)) (m : MapState)
  : MapState :=
  mkMap (cursorCoords m) (popupInfo m) (cursor m) (suitabilityMeta m)
        (selectedTrailName m) (isMeasuring m) (f (measurementPoints m))
        (measurementUnit m) (isStyleLoaded m) (styleLoadTimer m)
        (initialViewState m).

Definition setMeasurementUnit (f : MeasurementUnit -> MeasurementUnit)
  (m : MapState) : MapState :=
  mkMap (cursorCoords m) (popupInfo m) (cursor m) (suitabilityMeta m)
        (selectedTrailName m) (isMeasuring m) (measurementPoints m)
        (f (measurementUnit m)) (isStyleLoaded m) (styleLoadTimer m)
        (initialViewState m).

Definition setIsStyleLoaded (v : bool) (m : MapState) : MapState :=
  mkMap (cursorCoords m) (popupInfo m) (cursor m) (suitabilityMeta m)
        (selectedTrailName m) (isMeasuring m) (measurementPoints m)
        (measurementUnit m) v (styleLoadTimer m) (initialViewState m).

Definition setStyleLoadTimer (v : TimerRef) (m : MapState) : MapState :=
  mkMap (cursorCoords m) (popupInfo m) (cursor m) (suitabilityMeta m)
        (selectedTrailName m) (isMeasuring m) (measurementPoints m)
        (measurementUnit m) (isStyleLoaded m) v (initialViewState m).

Definition setInitialViewState (v : ViewState) (m : MapState) : MapState :=
  mkMap (cursorCoords m) (popupInfo m) (cursor m) (suitabilityMeta m)
        (selectedTrailName m) (isMeasuring m) (measurementPoints m)
        (measurementUnit m) (isStyleLoaded m) (styleLoadTimer m) v.

(** ** components/Sidebar.tsx: data *)

Inductive Tab : Type := Layers | About.

(** [activeTab] and [showInfoTab] of [Sidebar], and [isOpen] of its three
    [CollapsibleSection]s.  The sections are mounted only while the Layers
    tab is shown; on an About page the three fields hold the value the
    sections start from when they are mounted again.  The info panels of the
    [LayerToggle]s hold no overlay state and are left out. *)
Record SidebarState : Type := mkSidebar {
  activeTab : Tab;
  showInfoTab : option string;
  regulationOpen : bool;
  accessOpen : bool;
  habitatOpen : bool
}.

Definition Sidebar_init : SidebarState :=
  {| activeTab := Layers; showInfoTab := None;
     regulationOpen := true; accessOpen := true; habitatOpen := true |}.

(** ** The whole page *)

Record State : Type := mkState {
  app : AppState;
  map : MapState;
  sidebar : SidebarState
}.

Definition init : State :=
  {| app := App_init; map := Map_init; sidebar := Sidebar_init |}.

Definition on_app (f : AppState -> AppState) (s : State) : State :=
  mkState (f (app s)) (map s) (sidebar s).
Definition on_map (f : MapState -> MapState) (s : State) : State :=
  mkState (app s) (f (map s)) (sidebar s).
Definition on_sidebar (f : SidebarState -> SidebarState) (s : State) : State :=
  mkState (app s) (map s) (f (sidebar s)).

(** ** components/Map.tsx: handlers *)

(** The layer ids of the layer constants. *)
Definition bhsLayer := "bhs-distribution".
Definition huntingDistrictLineLayer := "hunting-district-line".
Definition huntingDistrictLabelLayer := "hunting-district-label".
Definition huntingDistrictHitLayer := "hunting-district-hit".
Definition mtRoadsLayer := "mt-roads".
Definition mtRoadsLabelLayer := "mt-roads-label".
Definition mtRoadsHitLayer := "mt-roads-hit".
Definition fsTrailsLayer := "fs-trails".
Definition fsTrailsLabelLayer := "fs-trails-label".
Definition fsTrailsHitLayer := "fs-trails-hit".
Definition publicLandsLayer := "public-lands".
Definition parcelsLayer := "parcels".
Definition parcelsLabelLayer := "parcels-labels".
Definition nhdWaterbodyFillLayer := "nhd-waterbody-fill".
Definition nhdWaterbodyOutlineLayer := "nhd-waterbody-outline".
Definition nhdFlowlineLayer := "nhd-flowline".
Definition nhdFlowlineLabelLayer := "nhd-flowline-label".
Definition nhdFlowlineHitLayer := "nhd-flowline-hit".
Definition elevationBandsLayer := "elevation-bands".
Definition slopeMaskLayer := "slope-mask".
Definition habitatSuitabilityLayer := "habitat-suitability".

(** [if (c) ids.push(x)] *)
Definition push_if (c : bool) (xs : list string) (ids : list string)
  : list string :=
  if c then ids ++ xs else ids.

Definition interactiveLayerIds (a : AppState) : list string :=
  let ids := [] in
  let ids := push_if (showElevationBands a) ["elevation-bands"] ids in
  let ids := push_if (showSlopeMask a) ["slope-mask"] ids in
  let ids := push_if (showPublicLands a) ["public-lands"] ids in
  let ids := push_if (showParcels a) ["parcels-labels"] ids in
  let ids := push_if (showBHS a) ["bhs-distribution"] ids in
  let ids := push_if (showMTRoads a) ["mt-roads-hit"] ids in
  let ids :=
    push_if (showNHD a) ["nhd-waterbody-fill"; "nhd-flowline-hit"] ids in
  let ids := push_if (showTrails a) ["fs-trails-hit"] ids in
  let ids := push_if (showLocalDistricts a) ["hunting-district-hit"] ids in
  let ids := push_if (showHabitatSuitability a) ["habitat-suitability"] ids in
  ids.

(** [clearTimeout(styleLoadTimer.current)]: the timeout no longer fires, the
    ref keeps its handle. *)
Definition clearTimeout (t : TimerRef) : TimerRef :=
  match t with
  | TimerNull => TimerNull
  | TimerPending | TimerCancelled => TimerCancelled
  end.

Definition next_style (style : string) : string :=
  if String.eqb style STYLE_TERRAIN then STYLE_SATELLITE else STYLE_TERRAIN.

Definition toggleMapStyle (s : State) : State :=
  let s := on_map (fun m => setStyleLoadTimer (clearTimeout (styleLoadTimer m)) m) s in
  let s := on_map (setIsStyleLoaded false) s in
  on_app (setMapStyle (next_style (mapStyle (app s)))) s.

(** [event.features && event.features[0]] *)
Definition first_feature (e : ClickEvent) : option Feature :=
  match features e with
  | Some (f :: _) => Some f
  | _ => None
  end.

Definition onClick (e : ClickEvent) (m : MapState) : MapState :=
  let feature := first_feature e in
  if isMeasuring m then
    let '(mkLngLat lng lat) := lngLat e in
    setMeasurementPoints (fun prev => prev ++ [[lng; lat]]) m
  else
    match feature with
    | Some f =>
        let m := setPopupInfo (Some (mkPopupInfo f (lngLat e))) m in
        if String.eqb (layer_id f) "fs-trails-hit"
        then setSelectedTrailName (Js.or_null (Js.get (properties f) "Name")) m
        else m
    | None =>
        let m := setPopupInfo None m in
        setSelectedTrailName None m
    end.

Definition onMouseMove (p : LngLat) : MapState -> MapState :=
  setCursorCoords (Some p).
Definition onMouseEnter : MapState -> MapState := setCursor "pointer".
Definition onMouseLeave : MapState -> MapState := setCursor "auto".

Definition onLoad : MapState -> MapState := setIsStyleLoaded true.

Definition onStyleData (dataType : string) (m : MapState) : MapState :=
  if String.eqb dataType "style" then
    if negb (timer_set (styleLoadTimer m)) && negb (isStyleLoaded m)
    then setStyleLoadTimer TimerPending m
    else m
  else m.

(** The body of the 500 ms timeout; [loaded] is [map.isStyleLoaded()]. *)
Definition onStyleTimer (loaded : bool) (m : MapState) : MapState :=
  let m := if loaded then setIsStyleLoaded true m else m in
  setStyleLoadTimer TimerNull m.

(** The first effect, for a district file with at least one feature whose
    bounding box is [minLng, minLat, maxLng, maxLat]. *)
Definition onDistrictBbox (minLng minLat maxLng maxLat : Js.number)
  : MapState -> MapState :=
  setInitialViewState
    {| longitude := ((minLng + maxLng) / 2)%float;
       latitude := ((minLat + maxLat) / 2)%float;
       zoom := 11%float |}.

Definition toggle_unit (u : MeasurementUnit) : MeasurementUnit :=
  match u with miles => yards | yards => miles end.

Definition onDistanceClick : MapState -> MapState :=
  setMeasurementUnit (fun prev => toggle_unit prev).

(** The click handler of the Clear button, which sits inside the distance
    display; the flag tells that [e.stopPropagation()] was called. *)
Definition onClearClick (m : MapState) : MapState * bool :=
  (setMeasurementPoints (fun _ => []) m, true).

(** A click on a child of the distance display bubbles to the display's own
    handler unless its propagation was stopped. *)
Definition bubble_to_display (r : MapState * bool) : MapState :=
  if snd r then fst r else onDistanceClick (fst r).

Definition onMeasureClick (m : MapState) : MapState :=
  let was := isMeasuring m in
  let m := setIsMeasuring (negb was) m in
  if negb was then setPopupInfo None m else m.

Definition onPopupClose : MapState -> MapState := setPopupInfo None.

(** ** components/Map.tsx: what is rendered *)

(** The two functions of [@turf/turf] that the component calls.
    [lineString] throws for fewer than two positions; the geodesic length
    itself is the library's and is taken as a parameter below. *)
Module Turf.

Record LineString : Type := mkLineString {
  coordinates : list (list Js.number)
}.

Definition lineString (coords : list (list Js.number))
  : option LineString :=
  if Nat.ltb (List.length coords) 2 then None else Some (mkLineString coords).

End Turf.

Record SourceElt : Type := mkSource {
  source_id : string;
  source_layers : list string
}.

(** [c && <element/>] *)
Definition when {A : Type} (c : bool) (xs : list A) : list A :=
  if c then xs else [].

(** The children of [<Map>] below [NavigationControl], up to the popup:
    the sources with the ids of their layers, in source order. *)
Definition Map_sources (a : AppState) (m : MapState) : list SourceElt :=
  when (isStyleLoaded m)
    (when (Nat.ltb 0 (List.length (measurementPoints m)))
       [mkSource "measurement" ["measurement-line"; "measurement-points"]]
     ++ when (showNAIP a)
       [mkSource ("naip-" ++ naipYear a)%string
                 [("naip-layer-" ++ naipYear a)%string]]
     ++ when (showElevationBands a)
       [mkSource "elevation-bands" [elevationBandsLayer]]
     ++ when (showSlopeMask a)
       [mkSource "slope-mask" [slopeMaskLayer]]
     ++ when (showHabitatSuitability a
              && match suitabilityMeta m with Some _ => true | None => false end)
       [mkSource "habitat-suitability" [habitatSuitabilityLayer]]
     ++ when (showPublicLands a)
       [mkSource "public-lands" [publicLandsLayer]]
     ++ when (showParcels a)
       [mkSource "parcels" [parcelsLayer; parcelsLabelLayer]]
     ++ when (showBHS a)
       [mkSource "bhs-distribution" [bhsLayer]]
     ++ when (showMTRoads a)
       [mkSource "mt-roads" [mtRoadsLayer; mtRoadsLabelLayer; mtRoadsHitLayer]]
     ++ when (showNHD a)
       [mkSource "nhd-waterbodies"
                 [nhdWaterbodyFillLayer; nhdWaterbodyOutlineLayer];
        mkSource "nhd-flowlines"
                 [nhdFlowlineLayer; nhdFlowlineLabelLayer; nhdFlowlineHitLayer]]
     ++ when (showTrails a)
       [mkSource "fs-trails"
                 (when (Js.truthy (selectedTrailName m)) ["fs-trails-halo"]
                  ++ [fsTrailsLayer; fsTrailsLabelLayer; fsTrailsHitLayer])]
     ++ when (showLocalDistricts a)
       [mkSource "hunting-district"
                 [huntingDistrictLineLayer; huntingDistrictLabelLayer;
                  huntingDistrictHitLayer]]).

Definition rendered_source_ids (a : AppState) (m : MapState) : list string :=
  List.map source_id (Map_sources a m).

Definition rendered_layer_ids (a : AppState) (m : MapState) : list string :=
  List.flat_map source_layers (Map_sources a m).

Record PopupElt : Type := mkPopupElt {
  popup_longitude : Js.number;
  popup_latitude : Js.number;
  popup_title : string;
  popup_rows : list (string * string)
}.

Record DistanceElt : Type := mkDistanceElt {
  distance_text : string;
  distance_unit : string
}.

Section External.

(** [turf.length(line, { units })] *)
Variable turf_length : Turf.LineString -> MeasurementUnit -> Js.number.
(** [Number.prototype.toFixed] *)
Variable toFixed : Js.number -> nat -> string.
(** [String(x)] for a number [x] *)
Variable Number_toString : Js.number -> string.

(** [None] is the exception of [turf.lineString]. *)
Definition totalDistance (m : MapState) : option Js.number :=
  if Nat.ltb (List.length (measurementPoints m)) 2 then Some 0%float
  else
    match Turf.lineString (measurementPoints m) with
    | Some line => Some (turf_length line (measurementUnit m))
    | None => None
    end.

Definition fraction_digits (u : MeasurementUnit) : nat :=
  match u with miles => 2 | yards => 0 end.

Definition unit_label (u : MeasurementUnit) : string :=
  match u with miles => "mi" | yards => "yd" end.

(** The distance display; the outer [option] is the exception of
    [totalDistance], the inner one whether the element is rendered. *)
Definition Distance_display (m : MapState) : option (option DistanceElt) :=
  match totalDistance m with
  | None => None
  | Some d =>
      Some (if Nat.ltb 0 (List.length (measurementPoints m))
            then Some (mkDistanceElt
                         (toFixed d (fraction_digits (measurementUnit m)))
                         (unit_label (measurementUnit m)))
            else None)
  end.

(** [String(value)] *)
Definition String_of (v : Js.value) : string :=
  match v with
  | Js.Null => "null"
  | Js.Boolean true => "true"
  | Js.Boolean false => "false"
  | Js.Number x => Number_toString x
  | Js.Str s => s
  end.

Definition Popup_rows (f : Feature) : list (string * string) :=
  List.map (fun '(key, value) => (key, String_of value))
           (Js.entries (properties f)).

Definition Popup_view (m : MapState) : option PopupElt :=
  match popupInfo m with
  | None => None
  | Some p =>
      Some (mkPopupElt
              (lng (popupLngLat p)) (lat (popupLngLat p))
              (Js.replace_all "-" " " (Js.replace_all "-hit" "" (layer_id (feature p))))
              (Popup_rows (feature p)))
  end.

End External.

(** ** components/Sidebar.tsx: what is rendered *)

(** A checkbox with the label shown next to it and the setter that its
    [onChange] passes [e.target.checked] to. *)
Record Checkbox : Type := mkCheckbox {
  cb_label : string;
  cb_checked : bool;
  cb_onChange : bool -> AppState -> AppState
}.

Definition LayerToggle (label : string) (checked : bool)
  (onChange : bool -> AppState -> AppState) : Checkbox :=
  mkCheckbox label checked onChange.

Definition CollapsibleSection {A : Type} (isOpen : bool) (children : list A)
  : list A :=
  when isOpen children.

Definition NAIP_YEARS : list string :=
  ["2023"; "2021"; "2019"; "2017"; "2015"; "2013"; "2011"; "2009"; "2005"].

(** The checkboxes of the sidebar, in document order. *)
Definition Sidebar_checkboxes (sb : SidebarState) (a : AppState)
  : list Checkbox :=
  match activeTab sb with
  | About => []
  | Layers =>
      CollapsibleSection (regulationOpen sb)
        [LayerToggle "Hunting Districts" (showLocalDistricts a)
                     setShowLocalDistricts;
         LayerToggle "Public Lands" (showPublicLands a) setShowPublicLands;
         LayerToggle "MT Parcels" (showParcels a) setShowParcels]
      ++ CollapsibleSection (accessOpen sb)
        [LayerToggle "MT Highway/Roads" (showMTRoads a) setShowMTRoads;
         LayerToggle "Forest Service Trails" (showTrails a) setShowTrails]
      ++ CollapsibleSection (habitatOpen sb)
        [LayerToggle "NHD Hydrography" (showNHD a) setShowNHD;
         LayerToggle "Bighorn Sheep Distribution" (showBHS a) setShowBHS;
         LayerToggle "Elevation Bands" (showElevationBands a)
                     setShowElevationBands;
         LayerToggle "Steep Slope (>45°)" (showSlopeMask a)
                     setShowSlopeMask;
         LayerToggle "Habitat Suitability Index" (showHabitatSuitability a)
                     setShowHabitatSuitability]
      ++ [mkCheckbox "NAIP Imagery" (showNAIP a) setShowNAIP]
  end.

(** The NAIP year [<select>]: its value and its options. *)
Definition Sidebar_yearSelect (sb : SidebarState) (a : AppState)
  : option (string * list string) :=
  match activeTab sb with
  | About => None
  | Layers => if showNAIP a then Some (naipYear a, NAIP_YEARS) else None
  end.

(** ** Events and the transition function *)

Inductive SectionId : Type := RegulationAndLand | Access | Habitat.

Definition toggle_section (n : SectionId) (sb : SidebarState) : SidebarState :=
  match n with
  | RegulationAndLand =>
      mkSidebar (activeTab sb) (showInfoTab sb) (negb (regulationOpen sb))
                (accessOpen sb) (habitatOpen sb)
  | Access =>
      mkSidebar (activeTab sb) (showInfoTab sb) (regulationOpen sb)
                (negb (accessOpen sb)) (habitatOpen sb)
  | Habitat =>
      mkSidebar (activeTab sb) (showInfoTab sb) (regulationOpen sb)
                (accessOpen sb) (negb (habitatOpen sb))
  end.

(** [setActiveTab(t)] and the render that follows.  The Layers panel is
    [activeTab === 'Layers' && ...]: going to the About tab unmounts the three
    [CollapsibleSection]s, whose [isOpen] is lost, and coming back mounts
    them anew, each from [useState(true)].  A click on the tab that is
    already shown changes nothing. *)
Definition setActiveTab (t : Tab) (sb : SidebarState) : SidebarState :=
  match t, activeTab sb with
  | Layers, Layers =>
      mkSidebar Layers (showInfoTab sb) (regulationOpen sb) (accessOpen sb)
                (habitatOpen sb)
  | Layers, About => mkSidebar Layers (showInfoTab sb) true true true
  | About, _ => mkSidebar About (showInfoTab sb) true true true
  end.

Definition setShowInfoTab (v : option string) (sb : SidebarState)
  : SidebarState :=
  mkSidebar (activeTab sb) v (regulationOpen sb) (accessOpen sb)
            (habitatOpen sb).

Definition onNaipInfoClick (sb : SidebarState) : SidebarState :=
  match showInfoTab sb with
  | Some t => if String.eqb t "NAIP Imagery" then setShowInfoTab None sb
              else setShowInfoTab (Some "NAIP Imagery") sb
  | None => setShowInfoTab (Some "NAIP Imagery") sb
  end.

(** Everything that can happen to the page: user input on an element that is
    on the page, map callbacks, the style timer and the two fetches. *)
Inductive Event : Type :=
| MapClick (e : ClickEvent)
| MapMouseMove (p : LngLat)
| MapMouseEnter
| MapMouseLeave
| MapLoad
| MapStyleData (dataType : string)
| StyleTimerFired (loaded : bool)
| DistrictBbox (minLng minLat maxLng maxLat : Js.number)
| SuitabilityLoaded (data : option SuitabilityMeta)
| PopupClose
| DistanceClick
| ClearClick
| MeasureClick
| BasemapClick
| MenuClick
| SidebarClose
| TabClick (t : Tab)
| SectionClick (n : SectionId)
| NaipInfoClick
| CheckboxChange (i : nat) (checked : bool)
| YearChange (i : nat).

Definition is_layers (t : Tab) : bool :=
  match t with Layers => true | About => false end.

Definition nonempty {A : Type} (l : list A) : bool :=
  Nat.ltb 0 (List.length l).

(** [step s e] is the state after [e], or [None] when the element that [e]
    comes from is not rendered in [s]. *)
Definition step (s : State) (e : Event) : option State :=
  match e with
  | MapClick ev => Some (on_map (onClick ev) s)
  | MapMouseMove p => Some (on_map (onMouseMove p) s)
  | MapMouseEnter => Some (on_map onMouseEnter s)
  | MapMouseLeave => Some (on_map onMouseLeave s)
  | MapLoad => Some (on_map onLoad s)
  | MapStyleData dataType => Some (on_map (onStyleData dataType) s)
  | StyleTimerFired loaded =>
      match styleLoadTimer (map s) with
      | TimerPending => Some (on_map (onStyleTimer loaded) s)
      | _ => None
      end
  | DistrictBbox minLng minLat maxLng maxLat =>
      Some (on_map (onDistrictBbox minLng minLat maxLng maxLat) s)
  | SuitabilityLoaded data => Some (on_map (setSuitabilityMeta data) s)
  | PopupClose =>
      match popupInfo (map s) with
      | Some _ => Some (on_map onPopupClose s)
      | None => None
      end
  | DistanceClick =>
      if nonempty (measurementPoints (map s))
      then Some (on_map onDistanceClick s) else None
  | ClearClick =>
      if nonempty (measurementPoints (map s))
      then Some (on_map (fun m => bubble_to_display (onClearClick m)) s)
      else None
  | MeasureClick => Some (on_map onMeasureClick s)
  | BasemapClick => Some (toggleMapStyle s)
  | MenuClick => Some (on_app (setIsSidebarOpen true) s)
  | SidebarClose => Some (on_app (setIsSidebarOpen false) s)
  | TabClick t => Some (on_sidebar (setActiveTab t) s)
  | SectionClick n =>
      if is_layers (activeTab (sidebar s))
      then Some (on_sidebar (toggle_section n) s) else None
  | NaipInfoClick =>
      if is_layers (activeTab (sidebar s))
      then Some (on_sidebar onNaipInfoClick s) else None
  | CheckboxChange i checked =>
      match nth_error (Sidebar_checkboxes (sidebar s) (app s)) i with
      | Some c => Some (on_app (cb_onChange c checked) s)
      | None => None
      end
  | YearChange i =>
      match Sidebar_yearSelect (sidebar s) (app s) with
      | Some (_, options) =>
          match nth_error options i with
          | Some year => Some (on_app (setNaipYear year) s)
          | None => None
          end
      | None => None
      end
  end.

(** The states the page can be in. *)
Inductive reachable : State -> Prop :=
| reachable_init : reachable init
| reachable_step s e s' :
    reachable s -> step s e = Some s' -> reachable s'.

Fixpoint run (s : State) (es : list Event) : option State :=
  match es with
  | [] => Some s
  | e :: es' =>
      match step s e with
      | Some s' => run s' es'
      | None => None
      end
  end.

(** ** The overlays and their ids *)

Inductive Overlay : Type :=
| LocalDistricts | PublicLands | Parcels | MTRoads | Trails | NHD | BHS
| ElevationBands | SlopeMask | HabitatSuitability | NAIP.

Definition all_overlays : list Overlay :=
  [LocalDistricts; PublicLands; Parcels; MTRoads; Trails; NHD; BHS;
   ElevationBands; SlopeMask; HabitatSuitability; NAIP].

(** The visibility flag of an overlay and its setter. *)
Definition flag (o : Overlay) : AppState -> bool :=
  match o with
  | LocalDistricts => showLocalDistricts
  | PublicLands => showPublicLands
  | Parcels => showParcels
  | MTRoads => showMTRoads
  | Trails => showTrails
  | NHD => showNHD
  | BHS => showBHS
  | ElevationBands => showElevationBands
  | SlopeMask => showSlopeMask
  | HabitatSuitability => showHabitatSuitability
  | NAIP => showNAIP
  end.

Definition set_flag (o : Overlay) : bool -> AppState -> AppState :=
  match o with
  | LocalDistricts => setShowLocalDistricts
  | PublicLands => setShowPublicLands
  | Parcels => setShowParcels
  | MTRoads => setShowMTRoads
  | Trails => setShowTrails
  | NHD => setShowNHD
  | BHS => setShowBHS
  | ElevationBands => setShowElevationBands
  | SlopeMask => setShowSlopeMask
  | HabitatSuitability => setShowHabitatSuitability
  | NAIP => setShowNAIP
  end.

(** The label next to the checkbox of an overlay in the sidebar. *)
Definition overlay_label (o : Overlay) : string :=
  match o with
  | LocalDistricts => "Hunting Districts"
  | PublicLands => "Public Lands"
  | Parcels => "MT Parcels"
  | MTRoads => "MT Highway/Roads"
  | Trails => "Forest Service Trails"
  | NHD => "NHD Hydrography"
  | BHS => "Bighorn Sheep Distribution"
  | ElevationBands => "Elevation Bands"
  | SlopeMask => "Steep Slope (>45°)"
  | HabitatSuitability => "Habitat Suitability Index"
  | NAIP => "NAIP Imagery"
  end.

(** The [Source] ids inside the block of [Map.tsx] that an overlay's flag
    guards. *)
Definition overlay_source_ids (year : string) (o : Overlay) : list string :=
  match o with
  | LocalDistricts => ["hunting-district"]
  | PublicLands => ["public-lands"]
  | Parcels => ["parcels"]
  | MTRoads => ["mt-roads"]
  | Trails => ["fs-trails"]
  | NHD => ["nhd-waterbodies"; "nhd-flowlines"]
  | BHS => ["bhs-distribution"]
  | ElevationBands => ["elevation-bands"]
  | SlopeMask => ["slope-mask"]
  | HabitatSuitability => ["habitat-suitability"]
  | NAIP => [("naip-" ++ year)%string]
  end.

(** The [Layer] ids inside that block, the conditional trail halo apart. *)
Definition overlay_layer_ids (year : string) (o : Overlay) : list string :=
  match o with
  | LocalDistricts =>
      ["hunting-district-line"; "hunting-district-label";
       "hunting-district-hit"]
  | PublicLands => ["public-lands"]
  | Parcels => ["parcels"; "parcels-labels"]
  | MTRoads => ["mt-roads"; "mt-roads-label"; "mt-roads-hit"]
  | Trails => ["fs-trails"; "fs-trails-label"; "fs-trails-hit"]
  | NHD =>
      ["nhd-waterbody-fill"; "nhd-waterbody-outline"; "nhd-flowline";
       "nhd-flowline-label"; "nhd-flowline-hit"]
  | BHS => ["bhs-distribution"]
  | ElevationBands => ["elevation-bands"]
  | SlopeMask => ["slope-mask"]
  | HabitatSuitability => ["habitat-suitability"]
  | NAIP => [("naip-layer-" ++ year)%string]
  end.

(** The ids an overlay contributes to [interactiveLayerIds]. *)
Definition overlay_clickable_ids (o : Overlay) : list string :=
  match o with
  | LocalDistricts => ["hunting-district-hit"]
  | PublicLands => ["public-lands"]
  | Parcels => ["parcels-labels"]
  | MTRoads => ["mt-roads-hit"]
  | Trails => ["fs-trails-hit"]
  | NHD => ["nhd-waterbody-fill"; "nhd-flowline-hit"]
  | BHS => ["bhs-distribution"]
  | ElevationBands => ["elevation-bands"]
  | SlopeMask => ["slope-mask"]
  | HabitatSuitability => ["habitat-suitability"]
  | NAIP => []
  end.

(** What an overlay needs, besides its flag, to be drawn. *)
Definition overlay_ready (m : MapState) (o : Overlay) : bool :=
  isStyleLoaded m &&
  match o with
  | HabitatSuitability =>
      match suitabilityMeta m with Some _ => true | None => false end
  | _ => true
  end.

(** ** Sample inputs *)

Definition pt (x y : Js.number) : LngLat := mkLngLat x y.

Definition click_nothing (p : LngLat) : ClickEvent := mkClick (Some []) p.

Definition named_trail : Feature :=
  mkFeature "fs-trails-hit"
            [("Name", Js.Str "Ten Lakes Trail"); ("Miles", Js.Number 5.5%float)].

Definition unnamed_trail : Feature :=
  mkFeature "fs-trails-hit" [("Name", Js.Str ""); ("TrailNo", Js.Str "339")].

Definition a_road : Feature :=
  mkFeature "mt-roads-hit" [("Name", Js.Str "Grave Creek Rd")].

Definition click_on (f : Feature) (p : LngLat) : ClickEvent :=
  mkClick (Some [f]) p.

Definition here : LngLat := pt (-114.5)%float 48.75%float.
Definition there : LngLat := pt (-114.25)%float 48.5%float.

(** The page after Measure and two clicks on the map. *)
Definition measuring_two_points : State :=
  match run init [MeasureClick; MapClick (click_nothing here);
                  MapClick (click_on a_road there)] with
  | Some s => s
  | None => init
  end.

(** The page after the map has loaded and the road was clicked. *)
Definition road_popup_open : State :=
  match run init [MapLoad; MapClick (click_on a_road there)] with
  | Some s => s
  | None => init
  end.

(** ** Predicates and sample pages used in the statements *)

(** How a transition can change the state of [App]. *)
Inductive app_change (a : AppState) : Event -> AppState -> Prop :=
| app_same e : app_change a e a
| app_style : app_change a BasemapClick (setMapStyle (next_style (mapStyle a)) a)
| app_flag i o b : app_change a (CheckboxChange i b) (set_flag o b a)
| app_year i y : In y NAIP_YEARS -> showNAIP a = true ->
                 app_change a (YearChange i) (setNaipYear y a)
| app_menu : app_change a MenuClick (setIsSidebarOpen true a)
| app_close : app_change a SidebarClose (setIsSidebarOpen false a).

Definition two_styles (s : State) : Prop :=
  mapStyle (app s) = STYLE_TERRAIN \/ mapStyle (app s) = STYLE_SATELLITE.

(** Every hook of [MapComponent] other than the unit. *)
Definition same_but_unit (m m' : MapState) : Prop :=
  cursorCoords m' = cursorCoords m /\
  popupInfo m' = popupInfo m /\
  cursor m' = cursor m /\
  suitabilityMeta m' = suitabilityMeta m /\
  selectedTrailName m' = selectedTrailName m /\
  isMeasuring m' = isMeasuring m /\
  measurementPoints m' = measurementPoints m /\
  isStyleLoaded m' = isStyleLoaded m /\
  styleLoadTimer m' = styleLoadTimer m /\
  initialViewState m' = initialViewState m.

(** Every hook of [MapComponent] other than the point list. *)
Definition same_but_points (m m' : MapState) : Prop :=
  cursorCoords m' = cursorCoords m /\
  popupInfo m' = popupInfo m /\
  cursor m' = cursor m /\
  suitabilityMeta m' = suitabilityMeta m /\
  selectedTrailName m' = selectedTrailName m /\
  isMeasuring m' = isMeasuring m /\
  measurementUnit m' = measurementUnit m /\
  isStyleLoaded m' = isStyleLoaded m /\
  styleLoadTimer m' = styleLoadTimer m /\
  initialViewState m' = initialViewState m.

Definition no_popup_while_measuring (s : State) : Prop :=
  isMeasuring (map s) = true -> popupInfo (map s) = None.

(** Stand-ins for the library functions, for the sample evaluations: a
    path of 1.5 miles, which is 2640 yards. *)
Definition sample_length (_ : Turf.LineString) (u : MeasurementUnit)
  : Js.number :=
  match u with miles => 1.5%float | yards => 2640%float end.

Definition sample_toFixed (_ : Js.number) (digits : nat) : string :=
  match digits with 2 => "1.50" | _ => "2640" end.

Definition sample_toString (_ : Js.number) : string := "5.5".

(** The sentence of the specification about the selected trail, read
    literally: a click on a trail stores the feature's [Name] as it is. *)
Definition trail_name_stored_as_is : Prop :=
  forall (s s' : State) (ev : ClickEvent) (f : Feature) (rest : list Feature),
    isMeasuring (map s) = false ->
    step s (MapClick ev) = Some s' ->
    features ev = Some (f :: rest) ->
    layer_id f = "fs-trails-hit" ->
    selectedTrailName (map s') = Js.get (properties f) "Name".

Definition mem (x : string) (l : list string) : bool :=
  existsb (String.eqb x) l.

(** The page after the map has loaded and the habitat-suitability checkbox
    was ticked, with the suitability metadata not (yet) fetched. *)
Definition habitat_requested : State :=
  match run init [MapLoad; CheckboxChange 9 true] with
  | Some s => s
  | None => init
  end.

(** The sentence of the specification about drawing, read literally: an
    overlay's sources are on the map exactly when its flag is set and the
    style has loaded. *)
Definition drawn_iff_flag_and_style : Prop :=
  forall (a : AppState) (m : MapState) (o : Overlay) (id : string),
    In id (overlay_source_ids (naipYear a) o) ->
    (In id (rendered_source_ids a m) <->
     flag o a = true /\ isStyleLoaded m = true).

Definition sample_meta : SuitabilityMeta :=
  mkMeta [[(-115.0)%float; 49.0%float]; [(-114.5)%float; 49.0%float];
          [(-114.5)%float; 48.75%float]; [(-115.0)%float; 48.75%float]]
         "/data/habitat_suitability.png".

(** The same page once the suitability metadata has arrived. *)
Definition habitat_ready : State :=
  match step habitat_requested (SuitabilityLoaded (Some sample_meta)) with
  | Some s => s
  | None => init
  end.

(** ** More of what is rendered *)

(** A feature of the GeoJSON that the measurement source is given: the line
    through the points, or the marker of one point with its index. *)
Inductive GeoFeature : Type :=
| LineStringFeature (coordinates : list (list Js.number))
| PointFeature (coordinates : list Js.number) (index : nat).

(** [l.map((x, i) => f x i)], counting from [i]. *)
Fixpoint map_indexed {A B : Type} (f : A -> nat -> B) (i : nat) (l : list A)
  : list B :=
  match l with
  | [] => []
  | x :: l' => f x i :: map_indexed f (S i) l'
  end.

(** The [features] of the [data] of the measurement source, when the source
    is rendered. *)
Definition Measurement_data (m : MapState) : option (list GeoFeature) :=
  if isStyleLoaded m && Nat.ltb 0 (List.length (measurementPoints m))
  then Some (LineStringFeature (measurementPoints m)
             :: map_indexed PointFeature 0 (measurementPoints m))
  else None.

(** The coordinates display in the lower left corner. *)
Definition Coordinates_display (toFixed : Js.number -> nat -> string)
  (m : MapState) : string :=
  match cursorCoords m with
  | Some c => (toFixed (lat c) 4 ++ ", " ++ toFixed (lng c) 4)%string
  | None => "--, --"
  end.

(** The title and the caption of the basemap button. *)
Definition Basemap_button (a : AppState) : string * string :=
  if String.eqb (mapStyle a) STYLE_TERRAIN
  then ("Switch to Satellite", "Satellite")
  else ("Switch to Terrain", "Terrain").

(** The title and the caption of the Measure button. *)
Definition Measure_button (m : MapState) : string * string :=
  (if isMeasuring m then "Stop Measuring" else "Measure Distance",
   if isMeasuring m then "Measuring..." else "Measure").

(** [LAYER_METADATA]: description and source by label. *)
Definition LAYER_METADATA : list (string * (string * string)) :=
  [("Hunting Districts",
    ("Official management unit boundaries defined by Montana FWP. All map data is automatically clipped to a buffer of this boundary.",
     "MT FWP"));
   ("Public Lands",
    ("Dataset identifying land ownership including State, USFS, BLM, and National Park Service parcels.",
     "MT FWP"));
   ("MT Parcels",
    ("Detailed cadastral data showing property boundaries and ownership information from the Montana State Digital Infrastructure.",
     "MT MSDI"));
   ("MT Highway/Roads",
    ("Major transportation network including federal, state, and local roads with surface and access status.",
     "MT MSDI"));
   ("Forest Service Trails",
    ("Official USFS trail network.",
     "USFS"));
   ("NHD Hydrography",
    ("Comprehensive water dataset showing streams, rivers, lakes, and ponds.",
     "USGS NHD"));
   ("Bighorn Sheep Distribution",
    ("Habitat distribution ranges for bighorn sheep.",
     "MT FWP"));
   ("Elevation Bands",
    ("Visual classification of terrain elevation, helping identify peaks, basins, and plateaus.",
     "Calculated (DEM)"));
   ("Steep Slope (>45°)",
    ("Identification of extremely steep terrain (over 45 degrees) that may impact movement or animal behavior.",
     "Calculated (DEM)"));
   ("Habitat Suitability Index",
    ("Calculated suitability model weighting slope (1.5x), water distance (1.5x), and road distance (proxy for pressure) (1.0x).",
     "Analysis Model"));
   ("NAIP Imagery",
    ("High-resolution aerial photography from the National Agriculture Imagery Program. Available for multiple years.",
     "USDA"))].

(** [LAYER_METADATA[label]]; [None] is [undefined]. *)
Fixpoint metadata_of (table : list (string * (string * string)))
  (label : string) : option (string * string) :=
  match table with
  | [] => None
  | (k, v) :: table' =>
      if String.eqb k label then Some v else metadata_of table' label
  end.

(** The info panel of a [LayerToggle]:
    [isInfoExpanded && metadata && <div>...</div>]. *)
Definition LayerToggle_info (label : string) (isInfoExpanded : bool)
  : option (string * string) :=
  if isInfoExpanded then metadata_of LAYER_METADATA label else None.

(** The info panel of the NAIP block.  It reads
    [LAYER_METADATA['NAIP Imagery'].description] without a guard: the outer
    [None] is the TypeError of a missing entry, the inner one a panel that is
    not rendered. *)
Definition NAIP_info (sb : SidebarState)
  : option (option (string * string)) :=
  match activeTab sb with
  | About => Some None
  | Layers =>
      match showInfoTab sb with
      | Some t =>
          if String.eqb t "NAIP Imagery"
          then match metadata_of LAYER_METADATA "NAIP Imagery" with
               | Some md => Some (Some md)
               | None => None
               end
          else Some None
      | None => Some None
      end
  end.




(** The position of the last mouse move among some events. *)
Fixpoint last_move (es : list Event) : option LngLat :=
  match es with
  | [] => None
  | e :: es' =>
      match last_move es' with
      | Some p => Some p
      | None => match e with MapMouseMove p => Some p | _ => None end
      end
  end.

(** [xs] with some elements left out. *)
Inductive sublist {A : Type} : list A -> list A -> Prop :=
| sublist_nil : sublist [] []
| sublist_keep x l l' : sublist l l' -> sublist (x :: l) (x :: l')
| sublist_drop x l l' : sublist l l' -> sublist l (x :: l').

(** Every source id and every layer id that [Map.tsx] can put on the map,
    block by block. *)
Definition all_source_ids (year : string) : list string :=
  ["measurement"] ++ [("naip-" ++ year)%string] ++ ["elevation-bands"]
  ++ ["slope-mask"] ++ ["habitat-suitability"] ++ ["public-lands"]
  ++ ["parcels"] ++ ["bhs-distribution"] ++ ["mt-roads"]
  ++ ["nhd-waterbodies"; "nhd-flowlines"] ++ ["fs-trails"]
  ++ ["hunting-district"].

Definition all_layer_ids (year : string) : list string :=
  ["measurement-line"; "measurement-points"]
  ++ [("naip-layer-" ++ year)%string] ++ ["elevation-bands"]
  ++ ["slope-mask"] ++ ["habitat-suitability"] ++ ["public-lands"]
  ++ ["parcels"; "parcels-labels"] ++ ["bhs-distribution"]
  ++ ["mt-roads"; "mt-roads-label"; "mt-roads-hit"]
  ++ ["nhd-waterbody-fill"; "nhd-waterbody-outline"; "nhd-flowline";
      "nhd-flowline-label"; "nhd-flowline-hit"]
  ++ ["fs-trails-halo"] ++ ["fs-trails"; "fs-trails-label"; "fs-trails-hit"]
  ++ ["hunting-district-line"; "hunting-district-label";
      "hunting-district-hit"].

(** The page with a pending style timer. *)
Definition timer_pending : State :=
  match run init [MapStyleData "style"] with
  | Some s => s
  | None => init
  end.



(** The page after the map has loaded and the named trail was clicked. *)
Definition trail_selected : State :=
  match run init [MapLoad; MapClick (click_on named_trail here)] with
  | Some s => s
  | None => init
  end.

Definition is_DistanceClick (e : Event) : bool :=
  match e with DistanceClick => true | _ => false end.

Definition is_MeasureClick (e : Event) : bool :=
  match e with MeasureClick => true | _ => false end.

(** Whether an odd number of the events satisfies [p]. *)
Fixpoint odd_count (p : Event -> bool) (es : list Event) : bool :=
  match es with
  | [] => false
  | e :: es' => xorb (p e) (odd_count p es')
  end.

Definition hyphen : ascii := "-"%char.

(** * Properties *)

(** ** Shared lemmas *)

Lemma In_when {A : Type} (c : bool) (l : list A) (x : A) :
  In x (when c l) <-> c = true /\ In x l.
Proof.
  destruct c; simpl; split; intros H.
  - now split.
  - now destruct H.
  - contradiction.
  - now destruct H.
Qed.

Lemma nonempty_spec {A : Type} (l : list A) : nonempty l = true <-> l <> [].
Proof.
  destruct l; unfold nonempty; simpl; split; intros H;
    try discriminate; try congruence; reflexivity.
Qed.

Lemma run_reachable (es : list Event) :
  forall s s', reachable s -> run s es = Some s' -> reachable s'.
Proof.
  induction es as [|e es IH]; simpl; intros s s' Hs Hrun.
  - now inversion Hrun; subst.
  - destruct (step s e) as [s1|] eqn:Hstep; [|discriminate].
    eapply IH; [|exact Hrun]. eapply reachable_step; eassumption.
Qed.

(** The sample pages are pages the user can get to. *)
Lemma sample_pages_reachable :
  reachable measuring_two_points /\
  reachable road_popup_open /\
  reachable habitat_requested /\
  reachable habitat_ready.
Proof.
  repeat split.
  - apply run_reachable
      with (s := init)
           (es := [MeasureClick; MapClick (click_nothing here);
                   MapClick (click_on a_road there)]);
      [constructor | reflexivity].
  - apply run_reachable
      with (s := init) (es := [MapLoad; MapClick (click_on a_road there)]);
      [constructor | reflexivity].
  - apply run_reachable
      with (s := init) (es := [MapLoad; CheckboxChange 9 true]);
      [constructor | reflexivity].
  - apply run_reachable
      with (s := init)
           (es := [MapLoad; CheckboxChange 9 true;
                   SuitabilityLoaded (Some sample_meta)]);
      [constructor | reflexivity].
Qed.

Example interactiveLayerIds_init :
  interactiveLayerIds App_init
  = ["public-lands"; "mt-roads-hit"; "nhd-waterbody-fill"; "nhd-flowline-hit";
     "fs-trails-hit"; "hunting-district-hit"].
Proof. reflexivity. Qed.

Example Map_sources_before_load : Map_sources App_init Map_init = [].
Proof. reflexivity. Qed.

Example Map_sources_measuring :
  rendered_source_ids (app measuring_two_points)
                      (onLoad (map measuring_two_points))
  = ["measurement"; "public-lands"; "mt-roads"; "nhd-waterbodies";
     "nhd-flowlines"; "fs-trails"; "hunting-district"].
Proof. reflexivity. Qed.

Example popup_title_of_hit_layer :
  Js.replace_all "-" " " (Js.replace_all "-hit" "" "hunting-district-hit")
  = "hunting district".
Proof. reflexivity. Qed.

Example stale_timer_after_toggle :
  run init [MapStyleData "style"; BasemapClick; MapStyleData "style"]
  = Some (on_app (setMapStyle STYLE_SATELLITE)
                 (on_map (setStyleLoadTimer TimerCancelled) init)).
Proof. reflexivity. Qed.

Ltac pick_overlay :=
  first [ exists LocalDistricts; reflexivity
        | exists PublicLands; reflexivity
        | exists Parcels; reflexivity
        | exists MTRoads; reflexivity
        | exists Trails; reflexivity
        | exists NHD; reflexivity
        | exists BHS; reflexivity
        | exists ElevationBands; reflexivity
        | exists SlopeMask; reflexivity
        | exists HabitatSuitability; reflexivity
        | exists NAIP; reflexivity ].

(** Every checkbox of the sidebar is the toggle of one of the overlays. *)
Lemma checkbox_is_overlay (sb : SidebarState) (a : AppState) (c : Checkbox) :
  In c (Sidebar_checkboxes sb a) ->
  exists o, c = mkCheckbox (overlay_label o) (flag o a) (set_flag o).
Proof.
  unfold Sidebar_checkboxes, CollapsibleSection, LayerToggle.
  destruct (activeTab sb); [|intros []].
  destruct (regulationOpen sb), (accessOpen sb), (habitatOpen sb);
    simpl; intros H;
    repeat (destruct H as [H|H]; [subst c; pick_overlay|]);
    contradiction.
Qed.

Lemma step_app_change (s s' : State) (e : Event) :
  step s e = Some s' -> app_change (app s) e (app s').
Proof.
  destruct e; simpl; intros H;
    repeat match type of H with
           | context [match ?x with _ => _ end] =>
               let E := fresh "E" in destruct x eqn:E
           end;
    inversion H; subst; simpl; try solve [constructor].
  - match goal with
    | E : nth_error _ _ = Some _ |- _ =>
        apply nth_error_In, checkbox_is_overlay in E; destruct E as [o ->]
    end.
    simpl. constructor.
  - match goal with
    | E : Sidebar_yearSelect _ _ = Some _ |- _ =>
        unfold Sidebar_yearSelect in E;
        destruct (activeTab (sidebar s)); [|discriminate];
        destruct (showNAIP (app s)) eqn:Hn; [|discriminate];
        inversion E; subst
    end.
    match goal with
    | E : nth_error _ _ = Some _ |- _ => apply nth_error_In in E
    end.
    now constructor.
Qed.

Lemma flag_set_flag_same (o : Overlay) (b : bool) (a : AppState) :
  flag o (set_flag o b a) = b.
Proof. destruct o; reflexivity. Qed.

Lemma flag_set_flag_other (o o' : Overlay) (b : bool) (a : AppState) :
  o <> o' -> flag o' (set_flag o b a) = flag o' a.
Proof. destruct o, o'; intros H; try reflexivity; congruence. Qed.

Lemma set_flag_frame (o : Overlay) (b : bool) (a : AppState) :
  mapStyle (set_flag o b a) = mapStyle a /\
  naipYear (set_flag o b a) = naipYear a /\
  isSidebarOpen (set_flag o b a) = isSidebarOpen a.
Proof. destruct o; repeat split. Qed.

(** ** The initial state *)

(** C10. In the initial state the hunting districts, NHD hydrography, roads,
    trails and public lands are visible and parcels, NAIP imagery, bighorn
    sheep distribution, elevation bands, slope mask and habitat suitability
    are hidden; the NAIP year is "2023", the basemap is the terrain style,
    measurement mode is off, the point list is empty, the unit is miles and
    no popup is open. *)
Theorem initial_state :
  (showLocalDistricts (app init) = true /\
   showNHD (app init) = true /\
   showMTRoads (app init) = true /\
   showTrails (app init) = true /\
   showPublicLands (app init) = true) /\
  (showParcels (app init) = false /\
   showNAIP (app init) = false /\
   showBHS (app init) = false /\
   showElevationBands (app init) = false /\
   showSlopeMask (app init) = false /\
   showHabitatSuitability (app init) = false) /\
  (forall o, flag o (app init) = true <->
             In o [LocalDistricts; NHD; MTRoads; Trails; PublicLands]) /\
  naipYear (app init) = "2023" /\
  mapStyle (app init) = STYLE_TERRAIN /\
  isMeasuring (map init) = false /\
  measurementPoints (map init) = [] /\
  measurementUnit (map init) = miles /\
  popupInfo (map init) = None.
Proof.
  repeat split; try reflexivity.
  - destruct o; simpl; intros H; try discriminate; tauto.
  - simpl. intros H.
    repeat (destruct H as [H|H]; [subst o; reflexivity|]). contradiction.
Qed.

(** ** The basemap toggle *)

Lemma styles_differ : STYLE_TERRAIN <> STYLE_SATELLITE.
Proof. discriminate. Qed.

Lemma next_style_terrain : next_style STYLE_TERRAIN = STYLE_SATELLITE.
Proof. reflexivity. Qed.

Lemma next_style_other (style : string) :
  style <> STYLE_TERRAIN -> next_style style = STYLE_TERRAIN.
Proof.
  intros H. unfold next_style.
  destruct (String.eqb_spec style STYLE_TERRAIN); [contradiction|reflexivity].
Qed.

Lemma app_change_two_styles (a a' : AppState) (e : Event) :
  app_change a e a' ->
  mapStyle a = STYLE_TERRAIN \/ mapStyle a = STYLE_SATELLITE ->
  mapStyle a' = STYLE_TERRAIN \/ mapStyle a' = STYLE_SATELLITE.
Proof.
  intros Hc Ha. destruct Hc; simpl; try assumption.
  - destruct Ha as [-> | ->]; [right|left]; reflexivity.
  - destruct (set_flag_frame o b a) as [-> _]. assumption.
Qed.

Lemma reachable_two_styles (s : State) : reachable s -> two_styles s.
Proof.
  induction 1 as [|s e s' _ IH Hstep].
  - left; reflexivity.
  - eapply app_change_two_styles; [apply (step_app_change _ _ Hstep)|exact IH].
Qed.

(** C4. The basemap toggle sends the terrain style to the satellite style
    and every other style to the terrain style; from either of the two styles
    two toggles give the style back; and the styles of the reachable states
    are exactly terrain and satellite. *)
Theorem basemap_toggle :
  next_style STYLE_TERRAIN = STYLE_SATELLITE /\
  (forall style, style <> STYLE_TERRAIN -> next_style style = STYLE_TERRAIN) /\
  (forall s, exists s',
      step s BasemapClick = Some s' /\
      mapStyle (app s') = next_style (mapStyle (app s))) /\
  (forall s s' s'',
      two_styles s ->
      step s BasemapClick = Some s' -> step s' BasemapClick = Some s'' ->
      mapStyle (app s'') = mapStyle (app s)) /\
  (forall s, reachable s -> two_styles s) /\
  (exists s, reachable s /\ mapStyle (app s) = STYLE_TERRAIN) /\
  (exists s, reachable s /\ mapStyle (app s) = STYLE_SATELLITE).
Proof.
  split; [exact next_style_terrain|].
  split; [exact next_style_other|].
  split; [intros s; eexists; split; reflexivity|].
  split.
  { intros s s' s'' Hs H1 H2. simpl in H1, H2.
    inversion H1; subst s'; inversion H2; subst s''; simpl.
    destruct Hs as [-> | ->]; reflexivity. }
  split; [exact reachable_two_styles|].
  split.
  - exists init. split; [constructor|reflexivity].
  - exists (toggleMapStyle init). split; [|reflexivity].
    apply reachable_step with (s := init) (e := BasemapClick);
      [constructor|reflexivity].
Qed.

(** The toggle at the page with an open road popup, twice. *)
Lemma basemap_toggle_witness :
  two_styles road_popup_open /\
  mapStyle (app (toggleMapStyle road_popup_open)) = STYLE_SATELLITE /\
  mapStyle (app (toggleMapStyle (toggleMapStyle road_popup_open)))
  = mapStyle (app road_popup_open).
Proof.
  destruct basemap_toggle as (_ & _ & _ & Htwice & _).
  split; [left; reflexivity|].
  split; [reflexivity|].
  apply (Htwice road_popup_open (toggleMapStyle road_popup_open));
    [left; reflexivity | reflexivity | reflexivity].
Defined.

(** ** The measurement unit *)

(** C7. A click on the distance display turns miles into yards and yards into
    miles; the toggle is an involution on the two units; the point list, and
    everything else but the unit, stays as it was. *)
Theorem unit_toggle (s s' : State) :
  step s DistanceClick = Some s' ->
  measurementUnit (map s') = toggle_unit (measurementUnit (map s)) /\
  toggle_unit miles = yards /\
  toggle_unit yards = miles /\
  (forall u, toggle_unit (toggle_unit u) = u) /\
  (forall u, u = miles \/ u = yards) /\
  measurementPoints (map s') = measurementPoints (map s) /\
  same_but_unit (map s) (map s') /\
  app s' = app s /\
  sidebar s' = sidebar s.
Proof.
  simpl. destruct (nonempty (measurementPoints (map s))); [|discriminate].
  intros H; inversion H; subst s'; simpl.
  repeat split; try reflexivity.
  - intros []; reflexivity.
  - intros []; [left|right]; reflexivity.
Qed.

Lemma unit_toggle_witness :
  exists s',
    step measuring_two_points DistanceClick = Some s' /\
    measurementUnit (map s') = yards /\
    measurementPoints (map s') = measurementPoints (map measuring_two_points).
Proof.
  eexists. split; [reflexivity|].
  destruct (unit_toggle measuring_two_points eq_refl)
    as (Hu & _ & _ & _ & _ & Hp & _).
  split; [exact Hu | exact Hp].
Defined.

(** ** Measurement points *)

Lemma onClick_measuring (ev : ClickEvent) (m : MapState) :
  isMeasuring m = true ->
  onClick ev m =
  setMeasurementPoints
    (fun prev => prev ++ [[lng (lngLat ev); lat (lngLat ev)]]) m.
Proof.
  intros H. unfold onClick. rewrite H. now destruct (lngLat ev).
Qed.

(** What a click outside measurement mode does to the popup and the
    selected trail. *)
Lemma onClick_inspecting (ev : ClickEvent) (m : MapState) :
  isMeasuring m = false ->
  measurementPoints (onClick ev m) = measurementPoints m /\
  isMeasuring (onClick ev m) = false /\
  match first_feature ev with
  | Some f =>
      popupInfo (onClick ev m) = Some (mkPopupInfo f (lngLat ev)) /\
      selectedTrailName (onClick ev m) =
      if String.eqb (layer_id f) "fs-trails-hit"
      then Js.or_null (Js.get (properties f) "Name")
      else selectedTrailName m
  | None =>
      popupInfo (onClick ev m) = None /\
      selectedTrailName (onClick ev m) = None
  end.
Proof.
  intros H. unfold onClick. rewrite H.
  destruct (first_feature ev) as [f|]; simpl.
  - destruct (String.eqb (layer_id f) "fs-trails-hit"); simpl; auto.
  - auto.
Qed.

(** C2. A map click in measurement mode appends the clicked
    [longitude, latitude] pair as the last element of the point list, leaves
    the earlier vertices and their order as they were, and leaves the popup
    (and the selected trail) untouched. *)
Theorem click_while_measuring (s s' : State) (ev : ClickEvent) :
  isMeasuring (map s) = true ->
  step s (MapClick ev) = Some s' ->
  let pts := measurementPoints (map s) in
  let pts' := measurementPoints (map s') in
  pts' = pts ++ [[lng (lngLat ev); lat (lngLat ev)]] /\
  List.length pts' = S (List.length pts) /\
  nth_error pts' (List.length pts)
  = Some [lng (lngLat ev); lat (lngLat ev)] /\
  (forall i, i < List.length pts -> nth_error pts' i = nth_error pts i) /\
  popupInfo (map s') = popupInfo (map s) /\
  same_but_points (map s) (map s') /\
  app s' = app s /\
  sidebar s' = sidebar s.
Proof.
  intros Hm Hstep. simpl in Hstep. inversion Hstep; subst s'; clear Hstep.
  simpl. rewrite (onClick_measuring ev _ Hm). simpl.
  split; [reflexivity|].
  split; [rewrite length_app; simpl; lia|].
  split; [rewrite nth_error_app2, Nat.sub_diag by lia; reflexivity|].
  split; [intros i Hi; now rewrite nth_error_app1|].
  repeat split.
Qed.

(** A third click while measuring, on a feature: the point is appended and
    no popup opens. *)
Lemma click_while_measuring_witness :
  exists s',
    step measuring_two_points (MapClick (click_on named_trail here)) = Some s' /\
    measurementPoints (map s') =
    [[lng here; lat here]; [lng there; lat there]; [lng here; lat here]] /\
    popupInfo (map s') = None.
Proof.
  eexists. split; [reflexivity|].
  destruct (@click_while_measuring measuring_two_points _
              (click_on named_trail here) eq_refl eq_refl)
    as (Hpts & _ & _ & _ & Hpop & _).
  split; [exact Hpts | exact Hpop].
Defined.

(** C9. Clear empties the point list and changes nothing else (unit,
    measuring flag, popup, basemap style, visibility flags); the Measure
    button, in particular when it leaves measurement mode, keeps the points;
    and no event other than Clear makes a non-empty point list empty. *)
Theorem clear_frame (s s' : State) (e : Event) :
  step s e = Some s' ->
  (e = ClearClick ->
   measurementPoints (map s') = [] /\
   same_but_points (map s) (map s') /\
   app s' = app s /\
   sidebar s' = sidebar s) /\
  (e = MeasureClick ->
   isMeasuring (map s') = negb (isMeasuring (map s)) /\
   measurementPoints (map s') = measurementPoints (map s)) /\
  (e <> ClearClick ->
   (measurementPoints (map s') = measurementPoints (map s) \/
    exists p, measurementPoints (map s') = measurementPoints (map s) ++ [p]) /\
   (measurementPoints (map s) <> [] -> measurementPoints (map s') <> [])).
Proof.
  intros Hstep.
  assert (Hkeep : e <> ClearClick ->
                  measurementPoints (map s') = measurementPoints (map s) \/
                  exists p, measurementPoints (map s')
                            = measurementPoints (map s) ++ [p]).
  { intros Hne. destruct e; simpl in Hstep;
      repeat match type of Hstep with
             | context [match ?x with _ => _ end] => destruct x eqn:?
             end;
      inversion Hstep; subst s'; simpl; try congruence;
      try (left; reflexivity).
    - destruct (isMeasuring (map s)) eqn:Hm.
      + right. rewrite (onClick_measuring e _ Hm). simpl. eauto.
      + left. apply (onClick_inspecting e _ Hm).
    - left. unfold onStyleData.
      repeat match goal with
             | |- context [if ?c then _ else _] => destruct c
             end; reflexivity.
    - left. unfold onStyleTimer. destruct loaded; reflexivity.
    - left. unfold onMeasureClick.
      destruct (negb (isMeasuring (map s))); reflexivity. }
  split; [|split].
  - intros ->. simpl in Hstep.
    destruct (nonempty (measurementPoints (map s))); [|discriminate].
    inversion Hstep; subst s'; simpl. repeat split.
  - intros ->. simpl in Hstep. inversion Hstep; subst s'; simpl.
    unfold onMeasureClick.
    destruct (negb (isMeasuring (map s))); split; reflexivity.
  - intros Hne. split; [auto|].
    intros Hpts. destruct (Hkeep Hne) as [-> | [p ->]]; [assumption|].
    intros Happ. now apply app_eq_nil in Happ as [_ ?].
Qed.

(** Clear and Measure at the page with two measured points. *)
Lemma clear_frame_witness :
  (exists s',
      step measuring_two_points ClearClick = Some s' /\
      measurementPoints (map s') = [] /\
      isMeasuring (map s') = true /\
      measurementUnit (map s') = miles) /\
  (exists s',
      step measuring_two_points MeasureClick = Some s' /\
      isMeasuring (map s') = false /\
      measurementPoints (map s') =
      [[lng here; lat here]; [lng there; lat there]]).
Proof.
  split; eexists; (split; [reflexivity|]).
  - destruct (@clear_frame measuring_two_points _ ClearClick eq_refl)
      as (Hclear & _ & _).
    destruct (Hclear eq_refl) as (Hpts & Hsame & _).
    split; [exact Hpts|].
    destruct Hsame as (_ & _ & _ & _ & _ & Hm & Hu & _).
    split; [exact Hm | exact Hu].
  - destruct (@clear_frame measuring_two_points _ MeasureClick eq_refl)
      as (_ & Hmeasure & _).
    exact (Hmeasure eq_refl).
Defined.

(** ** No popup while measuring *)

(** The only way a transition changes the popup, and the only way it changes
    the measuring flag. *)
Lemma step_popup_measuring (s s' : State) (e : Event) :
  step s e = Some s' ->
  (popupInfo (map s') = popupInfo (map s) \/
   popupInfo (map s') = None \/
   exists ev f,
     e = MapClick ev /\ isMeasuring (map s) = false /\
     first_feature ev = Some f /\
     popupInfo (map s') = Some (mkPopupInfo f (lngLat ev))) /\
  (isMeasuring (map s') = isMeasuring (map s) \/
   e = MeasureClick /\ isMeasuring (map s') = negb (isMeasuring (map s)) /\
   (isMeasuring (map s) = false -> popupInfo (map s') = None)).
Proof.
  intros Hstep. destruct e; simpl in Hstep;
    repeat match type of Hstep with
           | context [match ?x with _ => _ end] => destruct x eqn:?
           end;
    inversion Hstep; subst s'; simpl; auto.
  - destruct (isMeasuring (map s)) eqn:Hm.
    + rewrite (onClick_measuring e _ Hm). simpl. auto.
    + destruct (onClick_inspecting e (map s) Hm) as (_ & Hm' & Hf).
      rewrite Hm'. split; [|auto].
      destruct (first_feature e) as [f|] eqn:Ef.
      * right; right. exists e, f. intuition.
      * right; left. apply Hf.
  - unfold onStyleData.
    repeat match goal with
           | |- context [if ?c then _ else _] => destruct c
           end; auto.
  - unfold onStyleTimer. destruct loaded; auto.
  - split; [|right]; unfold onMeasureClick;
      destruct (isMeasuring (map s)); simpl; auto.
    repeat split. discriminate.
Qed.

(** C8. While measurement mode is on, no popup is open: the Measure button
    clears the popup when it enters measurement mode, a click handled while
    measuring leaves the popup alone, only a click outside measurement mode
    opens a popup, and so every transition preserves "measuring implies no
    popup", which therefore holds in every reachable state. *)
Theorem popup_closed_while_measuring :
  no_popup_while_measuring init /\
  (forall s s' e,
      no_popup_while_measuring s -> step s e = Some s' ->
      no_popup_while_measuring s') /\
  (forall s, reachable s -> no_popup_while_measuring s) /\
  (forall s, isMeasuring (map s) = false ->
             exists s', step s MeasureClick = Some s' /\
                        isMeasuring (map s') = true /\
                        popupInfo (map s') = None) /\
  (forall s s' ev, isMeasuring (map s) = true ->
                   step s (MapClick ev) = Some s' ->
                   popupInfo (map s') = popupInfo (map s)) /\
  (forall s s' e, step s e = Some s' ->
                  popupInfo (map s) = None -> popupInfo (map s') <> None ->
                  exists ev, e = MapClick ev /\ isMeasuring (map s) = false).
Proof.
  assert (Hpres : forall s s' e,
             no_popup_while_measuring s -> step s e = Some s' ->
             no_popup_while_measuring s').
  { intros s s' e Hinv Hstep Hm'.
    destruct (step_popup_measuring _ _ Hstep) as [Hp Hm].
    destruct Hm as [Hm | (_ & Hneg & Hclear)].
    - rewrite Hm in Hm'.
      destruct Hp as [-> | [-> | (ev & f & _ & Hoff & _)]];
        [auto | reflexivity | congruence].
    - apply Hclear. rewrite Hm' in Hneg.
      destruct (isMeasuring (map s)); [discriminate|reflexivity]. }
  split; [intros _; reflexivity|].
  split; [exact Hpres|].
  split.
  { induction 1 as [|s e s' _ IH Hstep]; [intros _; reflexivity|].
    eapply Hpres; eassumption. }
  split.
  { intros s Hm. eexists. split; [reflexivity|].
    simpl. unfold onMeasureClick. rewrite Hm. split; reflexivity. }
  split.
  { intros s s' ev Hm Hstep. simpl in Hstep. inversion Hstep; subst s'.
    simpl. now rewrite (onClick_measuring ev _ Hm). }
  intros s s' e Hstep Hnone Hopen.
  destruct (step_popup_measuring _ _ Hstep)
    as [[Hp | [Hp | (ev & f & -> & Hoff & _)]] _].
  - congruence.
  - congruence.
  - now exists ev.
Qed.

(** Measure pressed while the road popup is open: the popup goes away, and
    the next click on a trail adds a point instead of opening one. *)
Lemma popup_closed_while_measuring_witness :
  popupInfo (map road_popup_open) <> None /\
  exists s1 s2,
    step road_popup_open MeasureClick = Some s1 /\
    step s1 (MapClick (click_on named_trail here)) = Some s2 /\
    no_popup_while_measuring s1 /\
    isMeasuring (map s2) = true /\
    popupInfo (map s2) = None.
Proof.
  destruct popup_closed_while_measuring as (_ & Hpres & _ & _ & Hkeep & _).
  split; [discriminate|].
  exists (on_map onMeasureClick road_popup_open).
  exists (on_map (onClick (click_on named_trail here))
                 (on_map onMeasureClick road_popup_open)).
  split; [reflexivity|]. split; [reflexivity|].
  split.
  - apply (Hpres road_popup_open _ MeasureClick);
      [intros H; discriminate H | reflexivity].
  - split; [reflexivity|].
    rewrite (Hkeep (on_map onMeasureClick road_popup_open) _
                   (click_on named_trail here) eq_refl eq_refl).
    reflexivity.
Defined.

(** ** The distance display *)

(** C1. With fewer than two points the total distance is 0; otherwise
    [turf.lineString] accepts the points and the total is the turf length of
    that line in the selected unit.  The distance display is rendered exactly
    when the list is not empty, and shows the total with 2 fraction digits
    and "mi" for miles, with 0 fraction digits and "yd" for yards. *)
Theorem total_distance_display
  (turf_length : Turf.LineString -> MeasurementUnit -> Js.number)
  (toFixed : Js.number -> nat -> string) (m : MapState) :
  let pts := measurementPoints m in
  let u := measurementUnit m in
  (List.length pts < 2 -> totalDistance turf_length m = Some 0%float) /\
  (2 <= List.length pts ->
   Turf.lineString pts = Some (Turf.mkLineString pts) /\
   totalDistance turf_length m
   = Some (turf_length (Turf.mkLineString pts) u)) /\
  (pts = [] -> Distance_display turf_length toFixed m = Some None) /\
  (pts <> [] ->
   exists d,
     totalDistance turf_length m = Some d /\
     Distance_display turf_length toFixed m
     = Some (Some (mkDistanceElt
                     (toFixed d (match u with miles => 2 | yards => 0 end))
                     (match u with miles => "mi" | yards => "yd" end)))).
Proof.
  intros pts u. subst pts u.
  unfold Distance_display, totalDistance, Turf.lineString.
  destruct (Nat.ltb_spec (List.length (measurementPoints m)) 2) as [Hlt|Hge].
  - split; [reflexivity|]. split; [lia|].
    split.
    + intros Hnil. now rewrite Hnil.
    + intros Hne. exists 0%float. split; [reflexivity|].
      destruct (measurementPoints m) as [|p ps]; [congruence|].
      simpl. now destruct (measurementUnit m).
  - split; [lia|]. split; [split; reflexivity|].
    split.
    + intros Hnil. rewrite Hnil in Hge. simpl in Hge. lia.
    + intros _. eexists. split; [reflexivity|].
      destruct (measurementPoints m) as [|p ps]; [simpl in Hge; lia|].
      simpl. now destruct (measurementUnit m).
Qed.

(** The display for no point, for one point (0 miles) and for the two
    measured points, in miles and after the unit toggle in yards. *)
Lemma total_distance_display_witness :
  Distance_display sample_length sample_toFixed (map init) = Some None /\
  totalDistance sample_length
    (setMeasurementPoints (fun _ => [[lng here; lat here]]) (map init))
  = Some 0%float /\
  Distance_display sample_length sample_toFixed (map measuring_two_points)
  = Some (Some (mkDistanceElt "1.50" "mi")) /\
  Distance_display sample_length sample_toFixed
    (onDistanceClick (map measuring_two_points))
  = Some (Some (mkDistanceElt "2640" "yd")).
Proof.
  split.
  { apply (total_distance_display sample_length sample_toFixed (map init)).
    reflexivity. }
  split.
  { apply (total_distance_display sample_length sample_toFixed
             (setMeasurementPoints (fun _ => [[lng here; lat here]])
                                   (map init))).
    simpl. lia. }
  split.
  { destruct (total_distance_display sample_length sample_toFixed
                (map measuring_two_points)) as (_ & _ & _ & H).
    destruct H as (d & Hd & Hshow); [discriminate|].
    rewrite Hshow. reflexivity. }
  destruct (total_distance_display sample_length sample_toFixed
              (onDistanceClick (map measuring_two_points)))
    as (_ & _ & _ & H).
  destruct H as (d & Hd & Hshow); [discriminate|].
  rewrite Hshow. reflexivity.
Defined.

(** ** The feature popup *)

Lemma first_feature_cons (ev : ClickEvent) (f : Feature) (rest : list Feature) :
  features ev = Some (f :: rest) -> first_feature ev = Some f.
Proof. unfold first_feature. now intros ->. Qed.

Lemma first_feature_none (ev : ClickEvent) :
  features ev = None \/ features ev = Some [] -> first_feature ev = None.
Proof. unfold first_feature. now intros [-> | ->]. Qed.

Lemma Popup_rows_nth (Number_toString : Js.number -> string) (f : Feature)
  (i : nat) (key : string) (value : Js.value) :
  nth_error (properties f) i = Some (key, value) ->
  nth_error (Popup_rows Number_toString f) i
  = Some (key, String_of Number_toString value).
Proof.
  intros H. unfold Popup_rows, Js.entries.
  rewrite nth_error_map, H. reflexivity.
Qed.

(** C3, as stated, fails: a trail whose [Name] is the empty string is
    stored as [null] ([feature.properties.Name || null]), not as its
    [Name]. *)
Lemma unnamed_trail_stored_as_null :
  isMeasuring (map init) = false /\
  features (click_on unnamed_trail here) = Some [unnamed_trail] /\
  layer_id unnamed_trail = "fs-trails-hit" /\
  Js.get (properties unnamed_trail) "Name" = Some (Js.Str "") /\
  (exists s',
      step init (MapClick (click_on unnamed_trail here)) = Some s' /\
      selectedTrailName (map s') = None) /\
  ~ trail_name_stored_as_is.
Proof.
  repeat split.
  - eexists. split; reflexivity.
  - intros H.
    specialize (H init _ (click_on unnamed_trail here) unnamed_trail []
                  eq_refl eq_refl eq_refl eq_refl).
    discriminate H.
Qed.

(** C3, amended.  A click outside measurement mode that carries at least
    one feature sets the popup to the first feature at the click's
    coordinates, and the popup shows one row per property entry, with the key
    and [String(value)], in order; when that feature is of the trails hit
    layer the selected trail becomes its [Name] if that is truthy (a
    non-empty string, for one) and [null] otherwise; a feature of another
    layer leaves the selected trail as it was.  A click that carries no
    feature sets the popup and the selected trail to [null]. *)
Theorem click_while_inspecting (Number_toString : Js.number -> string)
  (s s' : State) (ev : ClickEvent) :
  isMeasuring (map s) = false ->
  step s (MapClick ev) = Some s' ->
  (forall f rest,
      features ev = Some (f :: rest) ->
      popupInfo (map s') = Some (mkPopupInfo f (lngLat ev)) /\
      (exists title,
          Popup_view Number_toString (map s')
          = Some (mkPopupElt (lng (lngLat ev)) (lat (lngLat ev)) title
                             (Popup_rows Number_toString f))) /\
      List.length (Popup_rows Number_toString f)
      = List.length (properties f) /\
      (forall i key value,
          nth_error (properties f) i = Some (key, value) ->
          nth_error (Popup_rows Number_toString f) i
          = Some (key, String_of Number_toString value)) /\
      (layer_id f = "fs-trails-hit" ->
       (forall v, Js.get (properties f) "Name" = Some v ->
                  Js.truthy (Some v) = true ->
                  selectedTrailName (map s') = Some v) /\
       (forall name, Js.get (properties f) "Name" = Some (Js.Str name) ->
                     name <> "" ->
                     selectedTrailName (map s') = Some (Js.Str name)) /\
       (Js.truthy (Js.get (properties f) "Name") = false ->
        selectedTrailName (map s') = None)) /\
      (layer_id f <> "fs-trails-hit" ->
       selectedTrailName (map s') = selectedTrailName (map s))) /\
  (features ev = None \/ features ev = Some [] ->
   popupInfo (map s') = None /\
   selectedTrailName (map s') = None /\
   Popup_view Number_toString (map s') = None).
Proof.
  intros Hm Hstep. simpl in Hstep. inversion Hstep; subst s'; clear Hstep.
  simpl. destruct (onClick_inspecting ev (map s) Hm) as (_ & _ & Hf).
  split.
  - intros f rest Hev. rewrite (first_feature_cons _ Hev) in Hf.
    destruct Hf as [Hpop Hname].
    split; [exact Hpop|].
    split; [unfold Popup_view; rewrite Hpop; simpl; eauto|].
    split; [unfold Popup_rows, Js.entries; apply length_map|].
    split; [intros i key value; apply Popup_rows_nth|].
    split.
    + intros Hid. apply String.eqb_eq in Hid. rewrite Hid in Hname.
      rewrite Hname. unfold Js.or_null.
      split; [intros v Hv Ht; rewrite Hv; simpl in *; rewrite Ht; reflexivity|].
      split.
      * intros name Hv Hne. rewrite Hv. simpl.
        destruct (String.eqb_spec name ""); [contradiction|reflexivity].
      * intros Hfalse. simpl in *. now rewrite Hfalse.
    + intros Hid. apply String.eqb_neq in Hid. now rewrite Hid in Hname.
  - intros Hev. rewrite (first_feature_none _ Hev) in Hf.
    destruct Hf as [Hpop Hname].
    split; [exact Hpop|]. split; [exact Hname|].
    unfold Popup_view. now rewrite Hpop.
Qed.

(** A click on the named trail: the popup opens there with two rows, and
    the trail is selected. *)
Lemma click_while_inspecting_witness :
  exists s',
    step init (MapClick (click_on named_trail here)) = Some s' /\
    Popup_view sample_toString (map s')
    = Some (mkPopupElt (lng here) (lat here) "fs trails"
                       [("Name", "Ten Lakes Trail"); ("Miles", "5.5")]) /\
    selectedTrailName (map s') = Some (Js.Str "Ten Lakes Trail").
Proof.
  eexists. split; [reflexivity|].
  destruct (@click_while_inspecting sample_toString init _
              (click_on named_trail here) eq_refl eq_refl) as [Hfeat _].
  destruct (Hfeat named_trail [] eq_refl)
    as (_ & _ & _ & _ & Htrail & _).
  destruct (Htrail eq_refl) as (_ & Hname & _).
  split; [reflexivity|].
  apply Hname; [reflexivity | discriminate].
Defined.

(** ** The sidebar toggles *)

Lemma step_checkbox (s s' : State) (i : nat) (b : bool) :
  step s (CheckboxChange i b) = Some s' ->
  exists o, app s' = set_flag o b (app s) /\
            map s' = map s /\ sidebar s' = sidebar s.
Proof.
  simpl.
  destruct (nth_error (Sidebar_checkboxes (sidebar s) (app s)) i) as [c|] eqn:E;
    [|discriminate].
  intros H; inversion H; subst s'; simpl.
  apply nth_error_In, checkbox_is_overlay in E. destruct E as [o ->].
  exists o. repeat split.
Qed.

Lemma app_change_year (a a' : AppState) (e : Event) :
  app_change a e a' -> In (naipYear a) NAIP_YEARS -> In (naipYear a') NAIP_YEARS.
Proof.
  intros Hc Ha. destruct Hc; simpl; try assumption.
  destruct (set_flag_frame o b a) as (_ & -> & _). assumption.
Qed.

(** C6. The sidebar offers a checkbox for exactly the eleven overlays
    (hunting districts, public lands, parcels, roads, trails, NHD
    hydrography, bighorn sheep distribution, elevation bands, steep-slope
    mask, habitat suitability, NAIP imagery).  With the Layers tab and its
    sections open, each of the eleven has its checkbox on the page, showing
    its flag, and a change event on it sets that overlay's flag to the new
    value and leaves the other flags, the basemap, the year and the map
    alone.  Whatever is collapsed, a checkbox on the page is one of these; a
    change event on the checkbox at some position sets the flag of the
    overlay whose label it carries, and no other event changes any
    visibility flag.  The year select offers the nine fixed years, and the
    NAIP year of a reachable state is one of them. *)
Theorem toggles_are_fixed :
  (forall a,
      List.map (fun c => (cb_label c, cb_checked c))
               (Sidebar_checkboxes Sidebar_init a)
      = [("Hunting Districts", showLocalDistricts a);
         ("Public Lands", showPublicLands a);
         ("MT Parcels", showParcels a);
         ("MT Highway/Roads", showMTRoads a);
         ("Forest Service Trails", showTrails a);
         ("NHD Hydrography", showNHD a);
         ("Bighorn Sheep Distribution", showBHS a);
         ("Elevation Bands", showElevationBands a);
         ("Steep Slope (>45°)", showSlopeMask a);
         ("Habitat Suitability Index", showHabitatSuitability a);
         ("NAIP Imagery", showNAIP a)]) /\
  (forall a,
      List.map cb_onChange (Sidebar_checkboxes Sidebar_init a)
      = List.map set_flag all_overlays) /\
  (forall s b,
      sidebar s = Sidebar_init ->
      option_map (fun s' => showLocalDistricts (app s'))
                 (step s (CheckboxChange 0 b)) = Some b /\
      option_map (fun s' => showPublicLands (app s'))
                 (step s (CheckboxChange 1 b)) = Some b /\
      option_map (fun s' => showParcels (app s'))
                 (step s (CheckboxChange 2 b)) = Some b /\
      option_map (fun s' => showMTRoads (app s'))
                 (step s (CheckboxChange 3 b)) = Some b /\
      option_map (fun s' => showTrails (app s'))
                 (step s (CheckboxChange 4 b)) = Some b /\
      option_map (fun s' => showNHD (app s'))
                 (step s (CheckboxChange 5 b)) = Some b /\
      option_map (fun s' => showBHS (app s'))
                 (step s (CheckboxChange 6 b)) = Some b /\
      option_map (fun s' => showElevationBands (app s'))
                 (step s (CheckboxChange 7 b)) = Some b /\
      option_map (fun s' => showSlopeMask (app s'))
                 (step s (CheckboxChange 8 b)) = Some b /\
      option_map (fun s' => showHabitatSuitability (app s'))
                 (step s (CheckboxChange 9 b)) = Some b /\
      option_map (fun s' => showNAIP (app s'))
                 (step s (CheckboxChange 10 b)) = Some b) /\
  (forall s o b,
      activeTab (sidebar s) = Layers ->
      regulationOpen (sidebar s) = true ->
      accessOpen (sidebar s) = true ->
      habitatOpen (sidebar s) = true ->
      exists i c s',
        nth_error (Sidebar_checkboxes (sidebar s) (app s)) i = Some c /\
        cb_label c = overlay_label o /\
        cb_checked c = flag o (app s) /\
        step s (CheckboxChange i b) = Some s' /\
        flag o (app s') = b /\
        (forall o', o <> o' -> flag o' (app s') = flag o' (app s)) /\
        mapStyle (app s') = mapStyle (app s) /\
        naipYear (app s') = naipYear (app s) /\
        map s' = map s /\
        sidebar s' = sidebar s) /\
  (forall sb a c,
      In c (Sidebar_checkboxes sb a) ->
      exists o, c = mkCheckbox (overlay_label o) (flag o a) (set_flag o)) /\
  (forall s s' e,
      step s e = Some s' ->
      ((forall i b, e <> CheckboxChange i b) ->
       forall o, flag o (app s') = flag o (app s)) /\
      (forall i b,
          e = CheckboxChange i b ->
          exists o c,
            nth_error (Sidebar_checkboxes (sidebar s) (app s)) i = Some c /\
            cb_label c = overlay_label o /\
            app s' = set_flag o b (app s) /\
            flag o (app s') = b /\
            forall o', o <> o' -> flag o' (app s') = flag o' (app s))) /\
  (forall sb a v options,
      Sidebar_yearSelect sb a = Some (v, options) ->
      v = naipYear a /\
      options = ["2023"; "2021"; "2019"; "2017"; "2015"; "2013"; "2011";
                 "2009"; "2005"]) /\
  (forall s s' i,
      step s (YearChange i) = Some s' ->
      In (naipYear (app s'))
         ["2023"; "2021"; "2019"; "2017"; "2015"; "2013"; "2011"; "2009";
          "2005"]) /\
  (forall s,
      reachable s ->
      In (naipYear (app s))
         ["2023"; "2021"; "2019"; "2017"; "2015"; "2013"; "2011"; "2009";
          "2005"]).
Proof.
  split; [reflexivity|].
  split; [reflexivity|].
  split.
  { intros [a m sb] b Hsb. simpl in Hsb. subst sb. repeat split. }
  split.
  { intros [a m [tab info r ac h]] o b Htab Hr Hac Hh.
    simpl in Htab, Hr, Hac, Hh. subst tab r ac h.
    destruct o;
      [exists 0 | exists 1 | exists 2 | exists 3 | exists 4 | exists 5
       | exists 6 | exists 7 | exists 8 | exists 9 | exists 10];
      eexists; eexists;
      (split; [reflexivity|]); (split; [reflexivity|]);
      (split; [reflexivity|]); (split; [reflexivity|]);
      (split; [reflexivity|]);
      (split; [intros o' Hne; destruct o'; try reflexivity; now elim Hne|]);
      repeat split. }
  split; [exact checkbox_is_overlay|].
  split.
  { intros s s' e Hstep. split.
    - intros Hne o.
      destruct (step_app_change _ _ Hstep); try (destruct o; reflexivity).
      now elim (Hne i b).
    - intros i b ->. simpl in Hstep.
      destruct (nth_error (Sidebar_checkboxes (sidebar s) (app s)) i)
        as [c|] eqn:E; [|discriminate].
      inversion Hstep; subst s'; clear Hstep.
      destruct (checkbox_is_overlay _ _ _ (nth_error_In _ _ E)) as [o ->].
      exists o. eexists. split; [reflexivity|]. simpl.
      split; [reflexivity|]. split; [reflexivity|].
      split; [apply flag_set_flag_same|].
      intros o' Hne. now apply flag_set_flag_other. }
  split.
  { intros sb a v options. unfold Sidebar_yearSelect.
    destruct (activeTab sb); [|discriminate].
    destruct (showNAIP a); [|discriminate].
    intros H; inversion H; split; reflexivity. }
  split.
  { intros s s' i Hstep. simpl in Hstep.
    destruct (Sidebar_yearSelect (sidebar s) (app s)) as [[v options]|] eqn:E;
      [|discriminate].
    destruct (nth_error options i) as [year|] eqn:En; [|discriminate].
    inversion Hstep; subst s'; simpl.
    unfold Sidebar_yearSelect in E.
    destruct (activeTab (sidebar s)); [|discriminate].
    destruct (showNAIP (app s)); [|discriminate].
    inversion E; subst options. exact (nth_error_In _ _ En). }
  induction 1 as [|s e s' _ IH Hstep].
  - simpl; auto.
  - exact (app_change_year (step_app_change _ _ Hstep) IH).
Qed.

(** From the initial page: bighorn sheep distribution switched on and trails
    switched off by their checkboxes, each leaving the other flags alone; then
    NAIP switched on, the year select offered, and 2019 chosen. *)
Lemma toggles_are_fixed_witness :
  (exists s1,
      step init (CheckboxChange 6 true) = Some s1 /\
      showBHS (app s1) = true) /\
  (exists i s1,
      step init (CheckboxChange i false) = Some s1 /\
      showTrails (app s1) = false /\
      showNHD (app s1) = true /\ showBHS (app s1) = false) /\
  (exists s1 s2 s3,
      step init (CheckboxChange 2 true) = Some s1 /\
      showParcels (app s1) = true /\
      showTrails (app s1) = showTrails (app init) /\
      step s1 (CheckboxChange 10 true) = Some s2 /\
      Sidebar_yearSelect (sidebar s2) (app s2) = Some ("2023", NAIP_YEARS) /\
      step s2 (YearChange 2) = Some s3 /\
      naipYear (app s3) = "2019" /\
      In (naipYear (app s3)) NAIP_YEARS).
Proof.
  destruct toggles_are_fixed
    as (_ & _ & Hfields & Hevery & _ & Hflags & _ & Hyear & _).
  split.
  { exists (on_app (setShowBHS true) init). split; [reflexivity|].
    destruct (Hfields init true eq_refl)
      as (_ & _ & _ & _ & _ & _ & Hbhs & _).
    simpl in Hbhs. inversion Hbhs. reflexivity. }
  split.
  { destruct (Hevery init Trails false eq_refl eq_refl eq_refl eq_refl)
      as (i & c & s1 & _ & _ & _ & Hstep & Hset & Hother & _).
    exists i, s1. split; [exact Hstep|]. split; [exact Hset|].
    split.
    - apply (Hother NHD). discriminate.
    - apply (Hother BHS). discriminate. }
  exists (on_app (setShowParcels true) init).
  exists (on_app (setShowNAIP true) (on_app (setShowParcels true) init)).
  exists (on_app (setNaipYear "2019")
            (on_app (setShowNAIP true) (on_app (setShowParcels true) init))).
  split; [reflexivity|].
  split.
  { destruct (Hflags init (on_app (setShowParcels true) init)
                     (CheckboxChange 2 true) eq_refl) as [_ Hchange].
    destruct (Hchange 2 true eq_refl) as (o & c & Hnth & Hlabel & _ & Hset & _).
    simpl in Hnth. inversion Hnth; subst c. simpl in Hlabel.
    destruct o; try discriminate Hlabel. exact Hset. }
  split.
  { destruct (Hflags init (on_app (setShowParcels true) init)
                     (CheckboxChange 2 true) eq_refl) as [_ Hchange].
    destruct (Hchange 2 true eq_refl)
      as (o & c & Hnth & Hlabel & _ & _ & Hother).
    simpl in Hnth. inversion Hnth; subst c. simpl in Hlabel.
    destruct o; try discriminate Hlabel. apply (Hother Trails). discriminate. }
  split; [reflexivity|].
  split; [reflexivity|].
  split; [reflexivity|].
  split; [reflexivity|].
  apply (Hyear (on_app (setShowNAIP true) (on_app (setShowParcels true) init))
               _ 2).
  reflexivity.
Defined.

(** ** Overlays on the map *)

Lemma mem_In (x : string) (l : list string) : mem x l = true <-> In x l.
Proof.
  unfold mem. rewrite existsb_exists. split.
  - intros (y & Hy & Heq). apply String.eqb_eq in Heq. now subst.
  - intros H. exists x. split; [assumption|apply String.eqb_refl].
Qed.

Lemma mem_app (x : string) (l l' : list string) :
  mem x (l ++ l') = mem x l || mem x l'.
Proof. apply existsb_app. Qed.

Lemma mem_when (x : string) (c : bool) (l : list string) :
  mem x (when c l) = c && mem x l.
Proof. now destruct c. Qed.

Lemma map_when {A B : Type} (f : A -> B) (c : bool) (l : list A) :
  List.map f (when c l) = when c (List.map f l).
Proof. now destruct c. Qed.

Lemma flat_map_when {A B : Type} (f : A -> list B) (c : bool) (l : list A) :
  List.flat_map f (when c l) = when c (List.flat_map f l).
Proof. now destruct c. Qed.

Lemma push_if_mem (x : string) (c : bool) (xs ids : list string) :
  mem x (push_if c xs ids) = mem x ids || c && mem x xs.
Proof.
  unfold push_if. destruct c; simpl.
  - apply mem_app.
  - now rewrite orb_false_r.
Qed.

Ltac bool_tidy :=
  repeat (simpl;
          rewrite ?mem_app, ?mem_when, ?String.eqb_refl,
                  ?andb_false_r, ?andb_true_r, ?orb_false_r, ?andb_true_l).

(** The ids of an overlay's block are on the map exactly when its flag is
    set and it is ready. *)
Lemma source_mem (a : AppState) (m : MapState) (o : Overlay) (id : string) :
  In id (overlay_source_ids (naipYear a) o) ->
  mem id (rendered_source_ids a m) = flag o a && overlay_ready m o.
Proof.
  unfold rendered_source_ids, Map_sources, overlay_ready.
  rewrite map_when, mem_when, !map_app, !map_when, !mem_app, !mem_when.
  destruct o; simpl;
    intros H; repeat (destruct H as [<- | H]); try contradiction;
    bool_tidy; destruct (isStyleLoaded m); bool_tidy; reflexivity.
Qed.

Lemma layer_mem (a : AppState) (m : MapState) (o : Overlay) (id : string) :
  In id (overlay_layer_ids (naipYear a) o) ->
  mem id (rendered_layer_ids a m) = flag o a && overlay_ready m o.
Proof.
  unfold rendered_layer_ids, Map_sources, overlay_ready.
  rewrite flat_map_when, mem_when, !flat_map_app, !flat_map_when,
          !mem_app, !mem_when.
  destruct o; simpl;
    intros H; repeat (destruct H as [<- | H]); try contradiction;
    bool_tidy; destruct (isStyleLoaded m); bool_tidy; reflexivity.
Qed.

Lemma halo_mem (a : AppState) (m : MapState) :
  mem "fs-trails-halo" (rendered_layer_ids a m)
  = showTrails a && isStyleLoaded m && Js.truthy (selectedTrailName m).
Proof.
  unfold rendered_layer_ids, Map_sources.
  rewrite flat_map_when, mem_when, !flat_map_app, !flat_map_when,
          !mem_app, !mem_when.
  bool_tidy.
  destruct (isStyleLoaded m), (showTrails a); bool_tidy; reflexivity.
Qed.

Lemma clickable_mem (a : AppState) (o : Overlay) (id : string) :
  In id (overlay_clickable_ids o) ->
  mem id (interactiveLayerIds a) = flag o a.
Proof.
  unfold interactiveLayerIds. rewrite !push_if_mem.
  destruct o; simpl;
    intros H; repeat (destruct H as [<- | H]); try contradiction;
    bool_tidy; reflexivity.
Qed.

Lemma interactive_complete (a : AppState) (id : string) :
  In id (interactiveLayerIds a) ->
  exists o, In id (overlay_clickable_ids o) /\ flag o a = true.
Proof.
  intros H. apply mem_In in H. unfold interactiveLayerIds in H.
  rewrite !push_if_mem in H. simpl in H.
  repeat match type of H with
         | (_ || _ && _)%bool = true =>
             apply orb_true_iff in H; destruct H as [H | H]
         end;
    try discriminate;
    apply andb_true_iff in H; destruct H as [Hflag H];
    rewrite ?orb_false_r in H;
    repeat match type of H with
           | (_ || _)%bool = true =>
               apply orb_true_iff in H; destruct H as [H | H]
           end;
    apply String.eqb_eq in H; subst id.
  all: first [ exists HabitatSuitability; split; [simpl; tauto | exact Hflag]
             | exists LocalDistricts; split; [simpl; tauto | exact Hflag]
             | exists Trails; split; [simpl; tauto | exact Hflag]
             | exists NHD; split; [simpl; tauto | exact Hflag]
             | exists MTRoads; split; [simpl; tauto | exact Hflag]
             | exists BHS; split; [simpl; tauto | exact Hflag]
             | exists Parcels; split; [simpl; tauto | exact Hflag]
             | exists PublicLands; split; [simpl; tauto | exact Hflag]
             | exists SlopeMask; split; [simpl; tauto | exact Hflag]
             | exists ElevationBands; split; [simpl; tauto | exact Hflag] ].
Qed.

Lemma overlay_ready_spec (m : MapState) (o : Overlay) :
  overlay_ready m o = true <->
  isStyleLoaded m = true /\
  (o = HabitatSuitability -> suitabilityMeta m <> None).
Proof.
  unfold overlay_ready. rewrite andb_true_iff.
  destruct o; (split; intros [H1 H2]; split; try assumption; try reflexivity;
               try (intros Ho; discriminate Ho)).
  - intros _. destruct (suitabilityMeta m); [discriminate|discriminate].
  - destruct (suitabilityMeta m); [reflexivity|]. now elim H2.
Qed.

Lemma eq_true_iff (b c : bool) : b = c -> (b = true <-> c = true).
Proof. now intros ->. Qed.

(** C5, as stated, fails: with the habitat-suitability flag set and the style
    loaded, the habitat source is still not drawn while the suitability
    metadata is [null] ([showHabitatSuitability && suitabilityMeta && ...]). *)
Lemma habitat_waits_for_metadata :
  reachable habitat_requested /\
  showHabitatSuitability (app habitat_requested) = true /\
  isStyleLoaded (map habitat_requested) = true /\
  suitabilityMeta (map habitat_requested) = None /\
  rendered_source_ids (app habitat_requested) (map habitat_requested)
  = ["public-lands"; "mt-roads"; "nhd-waterbodies"; "nhd-flowlines";
     "fs-trails"; "hunting-district"] /\
  ~ In "habitat-suitability"
       (rendered_source_ids (app habitat_requested) (map habitat_requested)) /\
  In "habitat-suitability" (interactiveLayerIds (app habitat_requested)) /\
  ~ drawn_iff_flag_and_style.
Proof.
  split.
  { apply run_reachable with (es := [MapLoad; CheckboxChange 9 true])
                             (s := init); [constructor|reflexivity]. }
  repeat (split; [reflexivity|]).
  assert (Hout : ~ In "habitat-suitability"
                      (rendered_source_ids (app habitat_requested)
                                           (map habitat_requested))).
  { intros H. apply mem_In in H. discriminate H. }
  split; [exact Hout|].
  split; [apply mem_In; reflexivity|].
  intros Hclaim. apply Hout.
  apply (Hclaim (app habitat_requested) (map habitat_requested)
                HabitatSuitability "habitat-suitability").
  - simpl; tauto.
  - split; reflexivity.
Qed.

(** C5, amended.  For every overlay with a visibility flag: each source and
    each layer of its block is on the map if and only if its flag is set, the
    basemap style has loaded and, for habitat suitability, the suitability
    metadata has been fetched; the trail halo is on the map if and only if
    trails are shown, the style has loaded and a trail is selected.  Each
    clickable id of the overlay is in [interactiveLayerIds] if and only if
    its flag is set (two ids for NHD, the labels id alone for parcels, none
    for NAIP), and [interactiveLayerIds] holds nothing else.  Setting another
    overlay's flag, by its checkbox or otherwise, changes none of this. *)
Theorem overlays_follow_flags (a : AppState) (m : MapState) (o : Overlay) :
  (forall id,
      In id (overlay_source_ids (naipYear a) o) ->
      (In id (rendered_source_ids a m) <->
       flag o a = true /\ isStyleLoaded m = true /\
       (o = HabitatSuitability -> suitabilityMeta m <> None))) /\
  (forall id,
      In id (overlay_layer_ids (naipYear a) o) ->
      (In id (rendered_layer_ids a m) <->
       flag o a = true /\ isStyleLoaded m = true /\
       (o = HabitatSuitability -> suitabilityMeta m <> None))) /\
  (In "fs-trails-halo" (rendered_layer_ids a m) <->
   showTrails a = true /\ isStyleLoaded m = true /\
   Js.truthy (selectedTrailName m) = true) /\
  (forall id,
      In id (overlay_clickable_ids o) ->
      (In id (interactiveLayerIds a) <-> flag o a = true)) /\
  (forall id,
      In id (interactiveLayerIds a) ->
      exists o', In id (overlay_clickable_ids o') /\ flag o' a = true) /\
  overlay_clickable_ids NHD = ["nhd-waterbody-fill"; "nhd-flowline-hit"] /\
  overlay_clickable_ids Parcels = ["parcels-labels"] /\
  (forall o' b id,
      o' <> o ->
      (In id (overlay_source_ids (naipYear a) o) ->
       (In id (rendered_source_ids (set_flag o' b a) m) <->
        In id (rendered_source_ids a m))) /\
      (In id (overlay_layer_ids (naipYear a) o) ->
       (In id (rendered_layer_ids (set_flag o' b a) m) <->
        In id (rendered_layer_ids a m))) /\
      (In id (overlay_clickable_ids o) ->
       (In id (interactiveLayerIds (set_flag o' b a)) <->
        In id (interactiveLayerIds a)))) /\
  (forall s s' i b,
      app s = a -> map s = m ->
      step s (CheckboxChange i b) = Some s' ->
      exists o', app s' = set_flag o' b a /\ map s' = m).
Proof.
  split.
  { intros id Hid. rewrite <- mem_In, (source_mem a m o id Hid).
    rewrite andb_true_iff, overlay_ready_spec. tauto. }
  split.
  { intros id Hid. rewrite <- mem_In, (layer_mem a m o id Hid).
    rewrite andb_true_iff, overlay_ready_spec. tauto. }
  split.
  { rewrite <- mem_In, halo_mem, !andb_true_iff. tauto. }
  split.
  { intros id Hid. rewrite <- mem_In, (clickable_mem a o id Hid). tauto. }
  split; [exact (interactive_complete a)|].
  split; [reflexivity|].
  split; [reflexivity|].
  split.
  { intros o' b id Hne.
    destruct (set_flag_frame o' b a) as (_ & Hyear & _).
    pose proof (flag_set_flag_other b a Hne) as Hflag.
    split; [|split]; intros Hid; rewrite <- !mem_In; apply eq_true_iff.
    - rewrite (source_mem a m o id Hid).
      rewrite <- Hyear in Hid.
      rewrite (source_mem (set_flag o' b a) m o id Hid), Hflag. reflexivity.
    - rewrite (layer_mem a m o id Hid).
      rewrite <- Hyear in Hid.
      rewrite (layer_mem (set_flag o' b a) m o id Hid), Hflag. reflexivity.
    - rewrite (clickable_mem a o id Hid),
              (clickable_mem (set_flag o' b a) o id Hid), Hflag.
      reflexivity. }
  intros s s' i b <- <- Hstep.
  destruct (step_checkbox _ _ _ Hstep) as (o' & Happ & Hmap & _).
  exists o'. split; assumption.
Qed.

(** Habitat suitability is drawn once the metadata is there; trails are drawn
    and clickable, parcels are neither; ticking the parcels checkbox leaves
    the trails as they are. *)
Lemma overlays_follow_flags_witness :
  In "habitat-suitability"
     (rendered_source_ids (app habitat_ready) (map habitat_ready)) /\
  In "fs-trails-label"
     (rendered_layer_ids (app habitat_ready) (map habitat_ready)) /\
  ~ In "parcels" (rendered_source_ids (app habitat_ready) (map habitat_ready)) /\
  In "fs-trails-hit" (interactiveLayerIds (app habitat_ready)) /\
  (In "fs-trails"
      (rendered_source_ids (setShowParcels true (app habitat_ready))
                           (map habitat_ready)) <->
   In "fs-trails"
      (rendered_source_ids (app habitat_ready) (map habitat_ready))).
Proof.
  split.
  { destruct (overlays_follow_flags (app habitat_ready) (map habitat_ready)
                                    HabitatSuitability) as (Hsrc & _).
    apply (Hsrc "habitat-suitability"); [simpl; tauto|].
    split; [reflexivity|]. split; [reflexivity|].
    intros _. discriminate. }
  split.
  { destruct (overlays_follow_flags (app habitat_ready) (map habitat_ready)
                                    Trails) as (_ & Hlay & _).
    apply (Hlay "fs-trails-label"); [simpl; tauto|].
    split; [reflexivity|]. split; [reflexivity|].
    intros Ho. discriminate Ho. }
  split.
  { destruct (overlays_follow_flags (app habitat_ready) (map habitat_ready)
                                    Parcels) as (Hsrc & _).
    intros Hin. apply (Hsrc "parcels") in Hin; [|simpl; tauto].
    destruct Hin as [Hflag _]. discriminate Hflag. }
  split.
  { destruct (overlays_follow_flags (app habitat_ready) (map habitat_ready)
                                    Trails) as (_ & _ & _ & Hclick & _).
    apply (Hclick "fs-trails-hit"); [simpl; tauto | reflexivity]. }
  destruct (overlays_follow_flags (app habitat_ready) (map habitat_ready)
                                  Trails)
    as (_ & _ & _ & _ & _ & _ & _ & Hother & _).
  destruct (Hother Parcels true "fs-trails") as (Hsrc & _);
    [discriminate|].
  apply Hsrc. simpl; tauto.
Defined.

(** * Further properties of the page *)

(** ** Measuring *)

Lemma onClick_measuring_frame (ev : ClickEvent) (m : MapState) :
  isMeasuring m = true ->
  isMeasuring (onClick ev m) = true /\
  popupInfo (onClick ev m) = popupInfo m /\
  measurementPoints (onClick ev m)
  = measurementPoints m ++ [[lng (lngLat ev); lat (lngLat ev)]].
Proof.
  intros H. rewrite (onClick_measuring ev m H). simpl. auto.
Qed.

(** X1. A series of map clicks in measurement mode adds one vertex per click,
    in click order, after the vertices that were there, and keeps the mode and
    the popup; the same clicks outside measurement mode add no vertex. *)
Theorem clicks_accumulate (evs : list ClickEvent) (s : State) :
  exists s',
    run s (List.map MapClick evs) = Some s' /\
    isMeasuring (map s') = isMeasuring (map s) /\
    (isMeasuring (map s) = true ->
     measurementPoints (map s')
     = measurementPoints (map s)
       ++ List.map (fun ev => [lng (lngLat ev); lat (lngLat ev)]) evs /\
     popupInfo (map s') = popupInfo (map s)) /\
    (isMeasuring (map s) = false ->
     measurementPoints (map s') = measurementPoints (map s)).
Proof.
  revert s. induction evs as [|ev evs IH]; intros s.
  - exists s. simpl. rewrite app_nil_r. auto.
  - destruct (IH (on_map (onClick ev) s)) as (s' & Hrun & Hm & Hon & Hoff).
    change (map (on_map (onClick ev) s)) with (onClick ev (map s)) in *.
    exists s'. split; [exact Hrun|].
    destruct (isMeasuring (map s)) eqn:E.
    + destruct (onClick_measuring_frame ev (map s) E) as (Hm1 & Hp1 & Hpts1).
      rewrite Hm1 in Hm, Hon.
      split; [exact Hm|]. split; [|discriminate].
      intros _. destruct (Hon eq_refl) as [Hpts Hpop].
      rewrite Hpts, Hpop, Hpts1, Hp1, <- app_assoc. split; reflexivity.
    + destruct (onClick_inspecting ev (map s) E) as (Hpts1 & Hm1 & _).
      rewrite Hm1 in Hm, Hoff.
      split; [exact Hm|]. split; [discriminate|].
      intros _. now rewrite (Hoff eq_refl).
Qed.

(** Two more clicks on the page with two measured points; two clicks on the
    initial page. *)
Lemma clicks_accumulate_witness :
  (exists s',
      run measuring_two_points
          [MapClick (click_nothing there); MapClick (click_on named_trail here)]
      = Some s' /\
      measurementPoints (map s')
      = [[lng here; lat here]; [lng there; lat there];
         [lng there; lat there]; [lng here; lat here]]) /\
  (exists s',
      run init
          [MapClick (click_nothing there); MapClick (click_on named_trail here)]
      = Some s' /\
      measurementPoints (map s') = []).
Proof.
  split.
  - destruct (clicks_accumulate
                [click_nothing there; click_on named_trail here]
                measuring_two_points) as (s' & Hrun & _ & Hon & _).
    exists s'. split; [exact Hrun|]. apply (Hon eq_refl).
  - destruct (clicks_accumulate
                [click_nothing there; click_on named_trail here] init)
      as (s' & Hrun & _ & _ & Hoff).
    exists s'. split; [exact Hrun|]. apply (Hoff eq_refl).
Defined.

Lemma map_indexed_length {A B : Type} (f : A -> nat -> B) (l : list A) :
  forall i, List.length (map_indexed f i l) = List.length l.
Proof. induction l as [|x l IH]; simpl; intros i; [|rewrite IH]; reflexivity. Qed.

Lemma map_indexed_nth {A B : Type} (f : A -> nat -> B) (l : list A) :
  forall i k,
    nth_error (map_indexed f i l) k
    = option_map (fun x => f x (i + k)) (nth_error l k).
Proof.
  induction l as [|x l IH]; intros i k.
  - now destruct k.
  - destruct k as [|k]; simpl.
    + now rewrite Nat.add_0_r.
    + rewrite IH. now rewrite Nat.add_succ_r.
Qed.

(** X2. The measurement source is on the map exactly when the style has
    loaded and there is at least one point, whether or not measurement mode is
    on.  Its data then holds the line through all points first and after it
    one marker per point, in order: the marker at position [k + 1] has the
    coordinates of point [k] and the index [k]. *)
Theorem measurement_path (a : AppState) (m : MapState) :
  (In "measurement" (rendered_source_ids a m) <->
   isStyleLoaded m = true /\ measurementPoints m <> []) /\
  (Measurement_data m <> None <-> In "measurement" (rendered_source_ids a m)) /\
  (forall fs,
      Measurement_data m = Some fs ->
      List.length fs = S (List.length (measurementPoints m)) /\
      nth_error fs 0 = Some (LineStringFeature (measurementPoints m)) /\
      (forall k, nth_error fs (S k)
                 = option_map (fun p => PointFeature p k)
                              (nth_error (measurementPoints m) k))).
Proof.
  assert (Hsrc : mem "measurement" (rendered_source_ids a m)
                 = isStyleLoaded m
                   && Nat.ltb 0 (List.length (measurementPoints m))).
  { unfold rendered_source_ids, Map_sources.
    rewrite map_when, mem_when, !map_app, !map_when, !mem_app, !mem_when.
    bool_tidy. reflexivity. }
  assert (Hne : Nat.ltb 0 (List.length (measurementPoints m)) = true
                <-> measurementPoints m <> []).
  { apply (nonempty_spec (measurementPoints m)). }
  split; [|split].
  - rewrite <- mem_In, Hsrc, andb_true_iff, Hne. tauto.
  - rewrite <- mem_In, Hsrc. unfold Measurement_data.
    destruct (isStyleLoaded m
              && Nat.ltb 0 (List.length (measurementPoints m)));
      split; intros H; try discriminate; try reflexivity; congruence.
  - intros fs. unfold Measurement_data.
    destruct (isStyleLoaded m
              && Nat.ltb 0 (List.length (measurementPoints m)));
      [|discriminate].
    intros H; inversion H; subst fs; clear H. simpl.
    rewrite map_indexed_length. repeat split.
    intros k. apply map_indexed_nth.
Qed.

(** The two measured points, once the map has loaded. *)
Lemma measurement_path_witness :
  Measurement_data (onLoad (map measuring_two_points))
  = Some [LineStringFeature [[lng here; lat here]; [lng there; lat there]];
          PointFeature [lng here; lat here] 0;
          PointFeature [lng there; lat there] 1] /\
  nth_error
    [LineStringFeature [[lng here; lat here]; [lng there; lat there]];
     PointFeature [lng here; lat here] 0;
     PointFeature [lng there; lat there] 1] 2
  = Some (PointFeature [lng there; lat there] 1).
Proof.
  split; [reflexivity|].
  destruct (measurement_path (app measuring_two_points)
                             (onLoad (map measuring_two_points)))
    as (_ & _ & Hdata).
  destruct (Hdata _ eq_refl) as (_ & _ & Hk).
  exact (Hk 1).
Defined.

(** X3. The distance display takes clicks (unit toggle, Clear) exactly while
    there is at least one point; right after Clear it is gone, so neither of
    the two is possible until a new point is measured, and a point can only be
    measured in measurement mode. *)
Theorem display_events (s : State) :
  (step s DistanceClick <> None <-> measurementPoints (map s) <> []) /\
  (step s ClearClick <> None <-> measurementPoints (map s) <> []) /\
  (forall s', step s ClearClick = Some s' ->
              step s' DistanceClick = None /\ step s' ClearClick = None) /\
  (forall s' e, measurementPoints (map s) = [] ->
                step s e = Some s' ->
                measurementPoints (map s') <> [] ->
                isMeasuring (map s) = true /\ exists ev, e = MapClick ev).
Proof.
  split; [|split; [|split]].
  - simpl. rewrite <- nonempty_spec.
    destruct (nonempty (measurementPoints (map s)));
      split; intros H; congruence.
  - simpl. rewrite <- nonempty_spec.
    destruct (nonempty (measurementPoints (map s)));
      split; intros H; congruence.
  - simpl. destruct (nonempty (measurementPoints (map s))); [|discriminate].
    intros s' H; inversion H; subst s'. split; reflexivity.
  - intros s' e Hnil Hstep Hne.
    destruct e; simpl in Hstep;
      repeat match type of Hstep with
             | context [match ?x with _ => _ end] => destruct x eqn:?
             end;
      inversion Hstep; subst s'; simpl in Hne;
      try (exfalso; apply Hne; exact Hnil).
    + destruct (isMeasuring (map s)) eqn:Hm.
      * split; [reflexivity|]. now exists e.
      * exfalso. apply Hne.
        destruct (onClick_inspecting e (map s) Hm) as (-> & _). exact Hnil.
    + exfalso. apply Hne. unfold onStyleData.
      repeat match goal with
             | |- context [if ?c then _ else _] => destruct c
             end; exact Hnil.
    + exfalso. apply Hne. unfold onStyleTimer. destruct loaded; exact Hnil.
    + now elim Hne.
    + exfalso. apply Hne. unfold onMeasureClick.
      destruct (negb (isMeasuring (map s))); exact Hnil.
Qed.

Lemma display_events_witness :
  step init DistanceClick = None /\
  (exists s',
      step measuring_two_points ClearClick = Some s' /\
      step s' DistanceClick = None) /\
  isMeasuring (map (on_map onMeasureClick init)) = true.
Proof.
  split; [reflexivity|].
  split.
  - exists (on_map (fun m => bubble_to_display (onClearClick m))
                   measuring_two_points).
    split; [reflexivity|].
    destruct (display_events measuring_two_points) as (_ & _ & Hclear & _).
    apply (Hclear _ eq_refl).
  - destruct (display_events (on_map onMeasureClick init))
      as (_ & _ & _ & Hfirst).
    apply (Hfirst (on_map (onClick (click_nothing here))
                          (on_map onMeasureClick init))
                  (MapClick (click_nothing here)));
      [reflexivity | reflexivity | discriminate].
Defined.

(** ** Which event writes which hook *)

Lemma onClick_frame (ev : ClickEvent) (m : MapState) :
  cursorCoords (onClick ev m) = cursorCoords m /\
  cursor (onClick ev m) = cursor m /\
  suitabilityMeta (onClick ev m) = suitabilityMeta m /\
  isMeasuring (onClick ev m) = isMeasuring m /\
  measurementUnit (onClick ev m) = measurementUnit m /\
  isStyleLoaded (onClick ev m) = isStyleLoaded m /\
  styleLoadTimer (onClick ev m) = styleLoadTimer m /\
  initialViewState (onClick ev m) = initialViewState m.
Proof.
  unfold onClick. destruct (lngLat ev) as [x y].
  destruct (isMeasuring m) eqn:E; [simpl; rewrite E; repeat split|].
  destruct (first_feature ev) as [f|]; [|simpl; rewrite E; repeat split].
  destruct (String.eqb (layer_id f) "fs-trails-hit");
    simpl; rewrite E; repeat split.
Qed.

Lemma onStyleData_frame (d : string) (m : MapState) :
  setStyleLoadTimer (styleLoadTimer m) (onStyleData d m) = m.
Proof.
  unfold onStyleData.
  repeat match goal with
         | |- context [if ?c then _ else _] => destruct c
         end; now destruct m.
Qed.

Lemma onStyleTimer_frame (loaded : bool) (m : MapState) :
  onStyleTimer loaded m
  = setStyleLoadTimer TimerNull (setIsStyleLoaded (loaded || isStyleLoaded m) m).
Proof. unfold onStyleTimer. destruct loaded; now destruct m. Qed.

Lemma onMeasureClick_frame (m : MapState) :
  setPopupInfo (popupInfo m) (setIsMeasuring (isMeasuring m) (onMeasureClick m))
  = m /\
  isMeasuring (onMeasureClick m) = negb (isMeasuring m).
Proof. unfold onMeasureClick. destruct m as [? ? ? ? ? []]; split; reflexivity. Qed.

(** The hooks of [MapComponent] that have a single kind of writer, and the
    sidebar, after one transition. *)
Lemma step_hooks (s s' : State) (e : Event) :
  step s e = Some s' ->
  cursorCoords (map s')
  = match e with MapMouseMove p => Some p | _ => cursorCoords (map s) end /\
  cursor (map s')
  = match e with
    | MapMouseEnter => "pointer"
    | MapMouseLeave => "auto"
    | _ => cursor (map s)
    end /\
  suitabilityMeta (map s')
  = match e with SuitabilityLoaded d => d | _ => suitabilityMeta (map s) end /\
  measurementUnit (map s')
  = match e with
    | DistanceClick => toggle_unit (measurementUnit (map s))
    | _ => measurementUnit (map s)
    end /\
  isMeasuring (map s')
  = match e with
    | MeasureClick => negb (isMeasuring (map s))
    | _ => isMeasuring (map s)
    end /\
  isStyleLoaded (map s')
  = match e with
    | MapLoad => true
    | BasemapClick => false
    | StyleTimerFired loaded => loaded || isStyleLoaded (map s)
    | _ => isStyleLoaded (map s)
    end /\
  sidebar s'
  = match e with
    | TabClick t => setActiveTab t (sidebar s)
    | SectionClick n => toggle_section n (sidebar s)
    | NaipInfoClick => onNaipInfoClick (sidebar s)
    | _ => sidebar s
    end.
Proof.
  intros Hstep. destruct e; simpl in Hstep;
    repeat match type of Hstep with
           | context [match ?x with _ => _ end] => destruct x eqn:?
           end;
    inversion Hstep; subst s'; clear Hstep;
    unfold on_map, on_app, on_sidebar, toggleMapStyle; cbn [map app sidebar];
    try (destruct (onClick_frame e (map s)) as (-> & -> & -> & -> & -> & -> & _));
    unfold onStyleData, onStyleTimer, onMeasureClick;
    repeat match goal with
           | |- context [if ?c then _ else _] => destruct c eqn:?
           end;
    simpl; repeat split; congruence.
Qed.

(** X4. After any series of events the coordinates display shows the
    position of the last mouse move of the series, latitude first, both with
    four fraction digits; without a mouse move it shows what it showed
    before.  No event puts it back to "--, --". *)
Theorem coordinates_follow_pointer (toFixed : Js.number -> nat -> string)
  (es : list Event) :
  forall s s',
    run s es = Some s' ->
    cursorCoords (map s')
    = match last_move es with
      | Some p => Some p
      | None => cursorCoords (map s)
      end /\
    (forall p, last_move es = Some p ->
               Coordinates_display toFixed (map s')
               = (toFixed (lat p) 4 ++ ", " ++ toFixed (lng p) 4)%string) /\
    (cursorCoords (map s) <> None -> cursorCoords (map s') <> None).
Proof.
  assert (Hc : forall s s',
             run s es = Some s' ->
             cursorCoords (map s')
             = match last_move es with
               | Some p => Some p
               | None => cursorCoords (map s)
               end).
  { induction es as [|e es IH]; simpl; intros s s' Hrun.
    - now inversion Hrun.
    - destruct (step s e) as [s1|] eqn:Hstep; [|discriminate].
      rewrite (IH _ _ Hrun).
      destruct (last_move es); [reflexivity|].
      destruct (step_hooks _ _ Hstep) as (-> & _). now destruct e. }
  intros s s' Hrun. pose proof (Hc s s' Hrun) as H.
  split; [exact H|]. split.
  - intros p Hp. rewrite Hp in H. unfold Coordinates_display. now rewrite H.
  - intros Hsome. rewrite H. now destruct (last_move es).
Qed.

Lemma coordinates_follow_pointer_witness :
  exists s',
    run init [MapMouseMove there; MapMouseEnter; MapMouseMove here;
              MapClick (click_nothing here)] = Some s' /\
    cursorCoords (map s') = Some here /\
    Coordinates_display sample_toFixed (map s') = "2640, 2640".
Proof.
  eexists. split; [reflexivity|].
  destruct (@coordinates_follow_pointer sample_toFixed
              [MapMouseMove there; MapMouseEnter; MapMouseMove here;
               MapClick (click_nothing here)] init _ eq_refl)
    as (Hc & Hshow & _).
  split; [exact Hc|]. exact (Hshow here eq_refl).
Defined.

(** X5. After any series of events the unit is the one it was if the series
    holds an even number of clicks on the distance display and the other one
    if it holds an odd number; the same goes for measurement mode and the
    clicks on the Measure button.  Nothing else changes either of them. *)
Theorem unit_and_mode_parity (es : list Event) :
  forall s s',
    run s es = Some s' ->
    measurementUnit (map s')
    = (if odd_count is_DistanceClick es
       then toggle_unit (measurementUnit (map s))
       else measurementUnit (map s)) /\
    isMeasuring (map s')
    = xorb (odd_count is_MeasureClick es) (isMeasuring (map s)).
Proof.
  induction es as [|e es IH]; simpl; intros s s' Hrun.
  - inversion Hrun; subst. split; reflexivity.
  - destruct (step s e) as [s1|] eqn:Hstep; [|discriminate].
    destruct (IH _ _ Hrun) as [Hu Hm].
    destruct (step_hooks _ _ Hstep) as (_ & _ & _ & Hu1 & Hm1 & _).
    rewrite Hu, Hm, Hu1, Hm1. split.
    + destruct e; simpl; try reflexivity.
      destruct (odd_count is_DistanceClick es), (measurementUnit (map s));
        reflexivity.
    + destruct e; simpl; try reflexivity.
      destruct (odd_count is_MeasureClick es), (isMeasuring (map s));
        reflexivity.
Qed.

Lemma unit_and_mode_parity_witness :
  exists s',
    run measuring_two_points
        [DistanceClick; MeasureClick; DistanceClick; MapMouseLeave;
         DistanceClick] = Some s' /\
    measurementUnit (map s') = yards /\
    isMeasuring (map s') = false.
Proof.
  destruct (run measuring_two_points
                [DistanceClick; MeasureClick; DistanceClick; MapMouseLeave;
                 DistanceClick]) as [s'|] eqn:Hrun.
  - exists s'. split; [reflexivity|].
    destruct (unit_and_mode_parity _ _ Hrun) as [Hu Hm].
    rewrite Hu, Hm. split; vm_compute; reflexivity.
  - vm_compute in Hrun. discriminate Hrun.
Defined.

(** X6. In every reachable state the cursor is "auto" or "pointer": it is
    "pointer" after the pointer entered an interactive layer, "auto" after it
    left one, and no other event touches it. *)
Theorem cursor_auto_or_pointer :
  (forall s, reachable s ->
             cursor (map s) = "auto" \/ cursor (map s) = "pointer") /\
  (forall s s' e, step s e = Some s' ->
                  (e = MapMouseEnter -> cursor (map s') = "pointer") /\
                  (e = MapMouseLeave -> cursor (map s') = "auto") /\
                  (e <> MapMouseEnter -> e <> MapMouseLeave ->
                   cursor (map s') = cursor (map s))).
Proof.
  assert (Hstep : forall s s' e,
             step s e = Some s' ->
             (e = MapMouseEnter -> cursor (map s') = "pointer") /\
             (e = MapMouseLeave -> cursor (map s') = "auto") /\
             (e <> MapMouseEnter -> e <> MapMouseLeave ->
              cursor (map s') = cursor (map s))).
  { intros s s' e H. destruct (step_hooks _ _ H) as (_ & -> & _).
    destruct e; repeat split; intros; try discriminate; try reflexivity;
      congruence. }
  split; [|exact Hstep].
  induction 1 as [|s e s' _ IH H]; [left; reflexivity|].
  destruct (step_hooks _ _ H) as (_ & -> & _).
  destruct e; auto.
Qed.

Lemma cursor_auto_or_pointer_witness :
  cursor (map (on_map onMouseEnter road_popup_open)) = "pointer" /\
  cursor (map (on_map onMouseLeave (on_map onMouseEnter road_popup_open)))
  = "auto".
Proof.
  destruct cursor_auto_or_pointer as [_ Hstep].
  split.
  - apply (Hstep road_popup_open _ MapMouseEnter eq_refl). reflexivity.
  - apply (Hstep (on_map onMouseEnter road_popup_open) _ MapMouseLeave eq_refl).
    reflexivity.
Defined.

(** ** The popup header and the selected trail *)

Lemma replace_from_cons (pat rep : string) (c : ascii) (s : string) :
  Js.replace_from pat rep 0 (String c s)
  = if String.prefix pat (String c s)
    then (rep ++ Js.replace_from pat rep (String.length pat - 1) s)%string
    else String c (Js.replace_from pat rep 0 s).
Proof. reflexivity. Qed.

Lemma prefix_cons (a b : ascii) (p s : string) :
  String.prefix (String a p) (String b s)
  = if ascii_dec a b then String.prefix p s else false.
Proof. simpl. now destruct (ascii_dec a b). Qed.

Lemma replace_hyphen_none (s : string) :
  ~ In hyphen (list_ascii_of_string (Js.replace_all "-" " " s)).
Proof.
  unfold Js.replace_all. induction s as [|c s IH].
  - intros [].
  - rewrite replace_from_cons, prefix_cons.
    destruct (ascii_dec "-" c) as [Heq|Hne].
    + replace (String.prefix "" s) with true by now destruct s.
      change (~ In hyphen (" "%char :: list_ascii_of_string
                                       (Js.replace_from "-" " " 0 s))).
      intros [H|H]; [discriminate H|exact (IH H)].
    + change (~ In hyphen (c :: list_ascii_of_string
                                  (Js.replace_from "-" " " 0 s))).
      intros [H|H]; [apply Hne; symmetry; exact H|exact (IH H)].
Qed.

Lemma replace_absent (pat rep : string) (c : ascii) (s : string) :
  ~ In c (list_ascii_of_string s) ->
  Js.replace_all (String c pat) rep s = s.
Proof.
  unfold Js.replace_all. induction s as [|d s IH]; intros H.
  - reflexivity.
  - rewrite replace_from_cons, prefix_cons.
    destruct (ascii_dec c d) as [Heq|Hne].
    + exfalso. apply H. left. symmetry. exact Heq.
    + f_equal. apply IH. intros Hin. apply H. right. exact Hin.
Qed.

(** X7. The header of the popup never shows a hyphen, whatever the id of
    the clicked layer; an id without a hyphen is shown as it is. *)
Theorem popup_title_no_hyphen (Number_toString : Js.number -> string)
  (m : MapState) (p : PopupElt) (info : PopupInfo) :
  popupInfo m = Some info ->
  Popup_view Number_toString m = Some p ->
  ~ In hyphen (list_ascii_of_string (popup_title p)) /\
  (~ In hyphen (list_ascii_of_string (layer_id (feature info))) ->
   popup_title p = layer_id (feature info)).
Proof.
  unfold Popup_view. intros -> H. inversion H; subst p; clear H.
  cbn [popup_title].
  split; [apply replace_hyphen_none|].
  intros Hno.
  pose proof (replace_absent "hit" "" hyphen _ Hno) as H1.
  pose proof (replace_absent "" " " hyphen _ Hno) as H2.
  unfold hyphen in H1, H2. rewrite H1. exact H2.
Qed.

Lemma popup_title_no_hyphen_witness :
  exists p,
    Popup_view sample_toString (map road_popup_open) = Some p /\
    popup_title p = "mt roads" /\
    ~ In hyphen (list_ascii_of_string (popup_title p)).
Proof.
  eexists. split; [reflexivity|]. split; [reflexivity|].
  apply (@popup_title_no_hyphen sample_toString (map road_popup_open) _
           (mkPopupInfo a_road there) eq_refl eq_refl).
Defined.

Lemma or_null_truthy (v : option Js.value) :
  Js.or_null v = None \/ Js.truthy (Js.or_null v) = true.
Proof.
  unfold Js.or_null. destruct (Js.truthy v) eqn:E; [right; exact E|left; reflexivity].
Qed.

(** What a transition can do to the selected trail. *)
Lemma step_selectedTrailName (s s' : State) (e : Event) :
  step s e = Some s' ->
  selectedTrailName (map s') = selectedTrailName (map s) \/
  (exists ev, e = MapClick ev /\ isMeasuring (map s) = false) /\
  (selectedTrailName (map s') = None \/
   Js.truthy (selectedTrailName (map s')) = true).
Proof.
  intros Hstep. destruct e; simpl in Hstep;
    repeat match type of Hstep with
           | context [match ?x with _ => _ end] => destruct x eqn:?
           end;
    inversion Hstep; subst s'; clear Hstep;
    unfold on_map, on_app, on_sidebar, toggleMapStyle; cbn [map app sidebar];
    try (unfold onStyleData, onStyleTimer, onMeasureClick;
         repeat match goal with
                | |- context [if ?c then _ else _] => destruct c eqn:?
                end;
         left; reflexivity).
  destruct (isMeasuring (map s)) eqn:Hm.
  - left. rewrite (onClick_measuring e _ Hm). reflexivity.
  - destruct (onClick_inspecting e (map s) Hm) as (_ & _ & Hf).
    destruct (first_feature e) as [f|]; destruct Hf as [_ Hname];
      rewrite Hname.
    + destruct (String.eqb (layer_id f) "fs-trails-hit"); [|left; reflexivity].
      right. split; [now exists e|]. apply or_null_truthy.
    + right. split; [now exists e|]. left; reflexivity.
Qed.

(** X8. In every reachable state the selected trail name is [null] or a
    truthy value, never an empty name; so the halo layer is on the map exactly
    when trails are shown, the style has loaded and a trail is selected.  The
    selection changes only by a map click outside measurement mode: closing
    the popup, hiding the trails or measuring keeps it. *)
Theorem selected_trail_invariant :
  (forall s,
      reachable s ->
      (selectedTrailName (map s) = None \/
       Js.truthy (selectedTrailName (map s)) = true) /\
      (In "fs-trails-halo" (rendered_layer_ids (app s) (map s)) <->
       showTrails (app s) = true /\ isStyleLoaded (map s) = true /\
       selectedTrailName (map s) <> None)) /\
  (forall s s' e,
      step s e = Some s' ->
      selectedTrailName (map s') <> selectedTrailName (map s) ->
      exists ev, e = MapClick ev /\ isMeasuring (map s) = false).
Proof.
  assert (Hinv : forall s, reachable s ->
                           selectedTrailName (map s) = None \/
                           Js.truthy (selectedTrailName (map s)) = true).
  { induction 1 as [|s e s' _ IH Hstep]; [left; reflexivity|].
    destruct (step_selectedTrailName _ _ Hstep) as [-> | [_ H]]; assumption. }
  split.
  - intros s Hs. split; [exact (Hinv s Hs)|].
    rewrite <- mem_In, halo_mem, !andb_true_iff.
    destruct (Hinv s Hs) as [Hn | Ht].
    + rewrite Hn. simpl. split; [intros [_ H]; discriminate H|].
      intros (_ & _ & H). now elim H.
    + rewrite Ht. split; [intros [[H1 H2] _]|intros (H1 & H2 & _)].
      * repeat split; try assumption.
        intros Hn. rewrite Hn in Ht. discriminate Ht.
      * auto.
  - intros s s' e Hstep Hne.
    destruct (step_selectedTrailName _ _ Hstep) as [Heq | [H _]];
      [contradiction|exact H].
Qed.

Lemma selected_trail_invariant_witness :
  selectedTrailName (map trail_selected) = Some (Js.Str "Ten Lakes Trail") /\
  In "fs-trails-halo"
     (rendered_layer_ids (app trail_selected) (map trail_selected)) /\
  (exists s', step trail_selected PopupClose = Some s' /\
              selectedTrailName (map s') = selectedTrailName (map trail_selected)).
Proof.
  destruct selected_trail_invariant as [Hinv Hchange].
  assert (Hr : reachable trail_selected).
  { apply run_reachable
      with (s := init) (es := [MapLoad; MapClick (click_on named_trail here)]);
      [constructor | reflexivity]. }
  split; [reflexivity|].
  split.
  - apply (Hinv trail_selected Hr).
    split; [reflexivity|]. split; [reflexivity|discriminate].
  - exists (on_map onPopupClose trail_selected). split; reflexivity.
Defined.

(** ** Ids on the map *)

Lemma sublist_nil_l {A : Type} (l : list A) : sublist [] l.
Proof. induction l; constructor; assumption. Qed.

Lemma sublist_refl {A : Type} (l : list A) : sublist l l.
Proof. induction l; constructor; assumption. Qed.

Lemma sublist_app {A : Type} (l1 l1' l2 l2' : list A) :
  sublist l1 l1' -> sublist l2 l2' -> sublist (l1 ++ l2) (l1' ++ l2').
Proof.
  induction 1 as [|y l l' Hs IH|y l l' Hs IH]; simpl; intros H2;
    try constructor; auto.
Qed.

Lemma sublist_when {A : Type} (c : bool) (l l' : list A) :
  sublist l l' -> sublist (when c l) l'.
Proof. destruct c; simpl; [auto|intros _; apply sublist_nil_l]. Qed.

Lemma sublist_In {A : Type} (l l' : list A) (x : A) :
  sublist l l' -> In x l -> In x l'.
Proof.
  induction 1 as [|y l l' Hs IH|y l l' Hs IH]; simpl; intros Hin; auto.
  destruct Hin as [Hin|Hin]; [left; exact Hin|right; auto].
Qed.

Lemma sublist_NoDup {A : Type} (l l' : list A) :
  sublist l l' -> NoDup l' -> NoDup l.
Proof.
  induction 1 as [|x l l' Hs IH|x l l' Hs IH]; intros Hn.
  - constructor.
  - inversion Hn; subst. constructor; [|auto].
    intros Hin. now apply (sublist_In _ Hs) in Hin.
  - inversion Hn; subst. auto.
Qed.

Lemma rendered_sources_sublist (a : AppState) (m : MapState) :
  sublist (rendered_source_ids a m) (all_source_ids (naipYear a)).
Proof.
  unfold rendered_source_ids, Map_sources, all_source_ids.
  rewrite map_when, !map_app, !map_when. cbn [List.map source_id].
  apply sublist_when.
  repeat (apply sublist_app; [apply sublist_when, sublist_refl|]).
  apply sublist_when, sublist_refl.
Qed.

Lemma rendered_layers_sublist (a : AppState) (m : MapState) :
  sublist (rendered_layer_ids a m) (all_layer_ids (naipYear a)).
Proof.
  unfold rendered_layer_ids, Map_sources, all_layer_ids.
  rewrite flat_map_when, !flat_map_app, !flat_map_when.
  cbn [List.flat_map source_layers]. rewrite !app_nil_r.
  apply sublist_when.
  do 10 (apply sublist_app; [apply sublist_when, sublist_refl|]).
  rewrite (app_assoc ["fs-trails-halo"]).
  apply sublist_app; [|apply sublist_when, sublist_refl].
  apply sublist_when, sublist_app;
    [apply sublist_when, sublist_refl | apply sublist_refl].
Qed.

Lemma all_source_ids_NoDup (year : string) : NoDup (all_source_ids year).
Proof.
  unfold all_source_ids. simpl.
  repeat (constructor; [simpl; intuition discriminate|]). constructor.
Qed.

Lemma all_layer_ids_NoDup (year : string) : NoDup (all_layer_ids year).
Proof.
  unfold all_layer_ids. simpl.
  repeat (constructor; [simpl; intuition discriminate|]). constructor.
Qed.

Lemma push_if_when (c : bool) (xs ids : list string) :
  push_if c xs ids = ids ++ when c xs.
Proof. destruct c; simpl; [reflexivity|now rewrite app_nil_r]. Qed.

Lemma interactive_sublist (a : AppState) :
  sublist (interactiveLayerIds a)
          ((((((((((([] ++ ["elevation-bands"]) ++ ["slope-mask"])
                    ++ ["public-lands"]) ++ ["parcels-labels"])
                  ++ ["bhs-distribution"]) ++ ["mt-roads-hit"])
                ++ ["nhd-waterbody-fill"; "nhd-flowline-hit"])
               ++ ["fs-trails-hit"]) ++ ["hunting-district-hit"])
             ++ ["habitat-suitability"])).
Proof.
  unfold interactiveLayerIds. rewrite !push_if_when.
  repeat (apply sublist_app; [|apply sublist_when, sublist_refl]).
  constructor.
Qed.

(** X9. In every state the sources on the map have pairwise different ids,
    the layers on the map have pairwise different ids, and
    [interactiveLayerIds] lists no id twice, whatever year is selected. *)
Theorem rendered_ids_distinct (a : AppState) (m : MapState) :
  NoDup (rendered_source_ids a m) /\
  NoDup (rendered_layer_ids a m) /\
  NoDup (interactiveLayerIds a).
Proof.
  split; [|split].
  - exact (sublist_NoDup (rendered_sources_sublist a m)
                         (all_source_ids_NoDup (naipYear a))).
  - exact (sublist_NoDup (rendered_layers_sublist a m)
                         (all_layer_ids_NoDup (naipYear a))).
  - apply (sublist_NoDup (interactive_sublist a)). simpl.
    repeat (constructor; [simpl; intuition discriminate|]). constructor.
Qed.

Lemma clickable_is_layer (year : string) (o : Overlay) (id : string) :
  In id (overlay_clickable_ids o) -> In id (overlay_layer_ids year o).
Proof. destruct o; simpl; tauto. Qed.

(** X10. Once the style has loaded, every id in [interactiveLayerIds] is the
    id of a layer that is on the map, provided the suitability metadata is
    there whenever habitat suitability is switched on. *)
Theorem interactive_ids_are_rendered (a : AppState) (m : MapState)
  (id : string) :
  isStyleLoaded m = true ->
  (showHabitatSuitability a = true -> suitabilityMeta m <> None) ->
  In id (interactiveLayerIds a) ->
  In id (rendered_layer_ids a m).
Proof.
  intros Hloaded Hmeta Hin.
  destruct (interactive_complete a id Hin) as (o & Hclick & Hflag).
  apply mem_In.
  rewrite (layer_mem a m o id (clickable_is_layer (naipYear a) o id Hclick)).
  rewrite Hflag. simpl. apply overlay_ready_spec.
  split; [exact Hloaded|]. intros ->. exact (Hmeta Hflag).
Qed.

Lemma interactive_ids_are_rendered_witness :
  In "habitat-suitability" (interactiveLayerIds (app habitat_ready)) /\
  In "habitat-suitability"
     (rendered_layer_ids (app habitat_ready) (map habitat_ready)).
Proof.
  assert (H : In "habitat-suitability" (interactiveLayerIds (app habitat_ready))).
  { apply mem_In. reflexivity. }
  split; [exact H|].
  apply interactive_ids_are_rendered; [reflexivity | discriminate | exact H].
Defined.

(** ** Switching the basemap and waiting for the style *)

(** X11. A click on the basemap button takes every source off the map until
    the style is reported loaded again, but keeps the popup, the measured
    points, measurement mode, the selected trail, the visibility flags, the
    NAIP year and [interactiveLayerIds]; and the title of the button before
    the click names the style the click switches to. *)
Theorem basemap_toggle_unloads (s s' : State) :
  step s BasemapClick = Some s' ->
  Map_sources (app s') (map s') = [] /\
  isStyleLoaded (map s') = false /\
  interactiveLayerIds (app s') = interactiveLayerIds (app s) /\
  popupInfo (map s') = popupInfo (map s) /\
  measurementPoints (map s') = measurementPoints (map s) /\
  isMeasuring (map s') = isMeasuring (map s) /\
  selectedTrailName (map s') = selectedTrailName (map s) /\
  (forall o, flag o (app s') = flag o (app s)) /\
  naipYear (app s') = naipYear (app s) /\
  (fst (Basemap_button (app s)) = "Switch to Satellite" /\
   mapStyle (app s') = STYLE_SATELLITE \/
   fst (Basemap_button (app s)) = "Switch to Terrain" /\
   mapStyle (app s') = STYLE_TERRAIN).
Proof.
  simpl. intros H; inversion H; subst s'; clear H. simpl.
  repeat split.
  - intros o; destruct o; reflexivity.
  - unfold Basemap_button, next_style.
    destruct (String.eqb (mapStyle (app s)) STYLE_TERRAIN);
      [left|right]; split; reflexivity.
Qed.

Lemma basemap_toggle_unloads_witness :
  Map_sources (app road_popup_open) (map road_popup_open) <> [] /\
  exists s',
    step road_popup_open BasemapClick = Some s' /\
    Map_sources (app s') (map s') = [] /\
    popupInfo (map s') = popupInfo (map road_popup_open).
Proof.
  split; [discriminate|].
  exists (toggleMapStyle road_popup_open).
  split; [reflexivity|].
  destruct (@basemap_toggle_unloads road_popup_open _ eq_refl)
    as (Hs & _ & _ & Hp & _).
  split; [exact Hs | exact Hp].
Defined.



Lemma step_timer_cancelled (s s' : State) (e : Event) :
  styleLoadTimer (map s) = TimerCancelled ->
  step s e = Some s' ->
  styleLoadTimer (map s') = TimerCancelled /\
  (forall loaded, e <> StyleTimerFired loaded).
Proof.
  intros Ht Hstep. destruct e; simpl in Hstep;
    try rewrite Ht in Hstep;
    repeat match type of Hstep with
           | context [match ?x with _ => _ end] => destruct x eqn:?
           end;
    inversion Hstep; subst s'; clear Hstep;
    unfold on_map, on_app, on_sidebar, toggleMapStyle; cbn [map app sidebar];
    try (destruct (onClick_frame e (map s)) as (_ & _ & _ & _ & _ & _ & -> & _));
    unfold onStyleData, onMeasureClick;
    try rewrite Ht;
    repeat match goal with
           | |- context [if ?c then _ else _] => destruct c eqn:?
           end;
    simpl; try rewrite Ht; split; try reflexivity; try assumption;
    intros; discriminate.
Qed.

Lemma cancelled_stays (es : list Event) :
  forall s s',
    styleLoadTimer (map s) = TimerCancelled ->
    isStyleLoaded (map s) = false ->
    (forall e, In e es -> e <> MapLoad) ->
    run s es = Some s' ->
    styleLoadTimer (map s') = TimerCancelled /\ isStyleLoaded (map s') = false.
Proof.
  induction es as [|e es IH]; simpl; intros s s' Ht Hl Hno Hrun.
  - inversion Hrun; subst. auto.
  - destruct (step s e) as [s1|] eqn:Hstep; [|discriminate].
    destruct (@step_timer_cancelled s s1 e Ht Hstep) as [Ht1 Hfire].
    apply (IH s1 s'); auto.
    destruct (step_hooks _ _ Hstep) as (_ & _ & _ & _ & _ & -> & _).
    destruct e; try assumption; try reflexivity.
    + now elim (Hno MapLoad (or_introl eq_refl)).
    + now elim (Hfire loaded).
Qed.

(** X13. A basemap switch while the style timer is pending cancels the
    timeout but leaves its handle in the ref.  From then on no style data
    event schedules a timer and the timer never fires, so, short of a new load
    event of the map, the style is never reported loaded again and no source
    is ever drawn, whatever else happens. *)
Theorem stale_timer_blocks_overlays (es : list Event) (s s' : State) :
  styleLoadTimer (map s) = TimerPending ->
  (forall e, In e es -> e <> MapLoad) ->
  run s (BasemapClick :: es) = Some s' ->
  styleLoadTimer (map s') = TimerCancelled /\
  isStyleLoaded (map s') = false /\
  Map_sources (app s') (map s') = [] /\
  step s' (MapStyleData "style") = Some s' /\
  (forall loaded, step s' (StyleTimerFired loaded) = None).
Proof.
  intros Hp Hno Hrun. simpl in Hrun.
  assert (Ht : styleLoadTimer (map (toggleMapStyle s)) = TimerCancelled).
  { simpl. now rewrite Hp. }
  destruct (@cancelled_stays es (toggleMapStyle s) s' Ht eq_refl Hno Hrun)
    as [Ht' Hl'].
  split; [exact Ht'|]. split; [exact Hl'|].
  split; [unfold Map_sources; now rewrite Hl'|].
  split.
  - simpl. f_equal. unfold on_map, onStyleData. rewrite Ht'. simpl.
    now destruct s'.
  - intros loaded. simpl. now rewrite Ht'.
Qed.

Lemma stale_timer_blocks_overlays_witness :
  exists s',
    run timer_pending
        [BasemapClick; MapStyleData "style"; MapStyleData "style";
         CheckboxChange 2 true; BasemapClick; MapStyleData "style"]
    = Some s' /\
    isStyleLoaded (map s') = false /\
    Map_sources (app s') (map s') = [].
Proof.
  destruct (run timer_pending
                [BasemapClick; MapStyleData "style"; MapStyleData "style";
                 CheckboxChange 2 true; BasemapClick; MapStyleData "style"])
    as [s'|] eqn:Hrun.
  - exists s'. split; [reflexivity|].
    destruct (@stale_timer_blocks_overlays
                [MapStyleData "style"; MapStyleData "style";
                 CheckboxChange 2 true; BasemapClick; MapStyleData "style"]
                timer_pending s' eq_refl) as (_ & Hl & Hsrc & _).
    + simpl. intros e He.
      repeat (destruct He as [<- | He]; [discriminate|]). contradiction.
    + exact Hrun.
    + split; [exact Hl | exact Hsrc].
  - vm_compute in Hrun. discriminate Hrun.
Defined.

(** ** The sidebar *)









(** X15. The year select is on the page exactly when the Layers tab is
    active and NAIP imagery is switched on; a choice of its option [i] is
    possible exactly then and for [i] below nine, and sets the year to that
    option.  No other event changes the year: switching NAIP off and on again
    keeps the year that was chosen. *)
Theorem year_select (s : State) :
  (Sidebar_yearSelect (sidebar s) (app s) <> None <->
   activeTab (sidebar s) = Layers /\ showNAIP (app s) = true) /\
  (forall i,
      step s (YearChange i) <> None <->
      Sidebar_yearSelect (sidebar s) (app s) <> None /\ i < 9) /\
  (forall i s',
      step s (YearChange i) = Some s' ->
      nth_error NAIP_YEARS i = Some (naipYear (app s')) /\
      showNAIP (app s') = true /\ map s' = map s) /\
  (forall e s',
      step s e = Some s' ->
      (forall i, e <> YearChange i) ->
      naipYear (app s') = naipYear (app s)).
Proof.
  assert (Hsel : Sidebar_yearSelect (sidebar s) (app s) <> None <->
                 activeTab (sidebar s) = Layers /\ showNAIP (app s) = true).
  { unfold Sidebar_yearSelect.
    destruct (activeTab (sidebar s)), (showNAIP (app s));
      split; try (intros [H1 H2]); try intros H; try discriminate;
      try congruence; auto. }
  split; [exact Hsel|]. split; [|split].
  - intros i. simpl. unfold Sidebar_yearSelect in *.
    destruct (activeTab (sidebar s)), (showNAIP (app s));
      try (split; [intros H; now elim H | intros [H _]; now elim H]).
    destruct (nth_error NAIP_YEARS i) as [y|] eqn:E.
    + split; [|discriminate]. intros _. split; [discriminate|].
      assert (H9 : i < List.length NAIP_YEARS)
        by (apply nth_error_Some; rewrite E; discriminate).
      exact H9.
    + split; [intros H; now elim H|]. intros [_ Hi].
      apply nth_error_None in E. simpl in E. lia.
  - intros i s'. simpl. unfold Sidebar_yearSelect.
    destruct (activeTab (sidebar s)); [|discriminate].
    destruct (showNAIP (app s)) eqn:Hn; [|discriminate].
    destruct (nth_error NAIP_YEARS i) as [y|] eqn:E; [|discriminate].
    intros H; inversion H; subst s'. simpl. auto.
  - intros e s' Hstep Hne.
    destruct (step_app_change _ _ Hstep); try reflexivity.
    + apply set_flag_frame.
    + now elim (Hne i).
Qed.

Lemma year_select_witness :
  step init (YearChange 2) = None /\
  exists s1 s2 s3 s4,
    step init (CheckboxChange 10 true) = Some s1 /\
    step s1 (YearChange 4) = Some s2 /\
    naipYear (app s2) = "2015" /\
    step s2 (CheckboxChange 10 false) = Some s3 /\
    step s3 (CheckboxChange 10 true) = Some s4 /\
    naipYear (app s4) = "2015" /\
    step s4 (YearChange 9) = None.
Proof.
  split; [reflexivity|].
  exists (on_app (setShowNAIP true) init).
  exists (on_app (setNaipYear "2015") (on_app (setShowNAIP true) init)).
  exists (on_app (setShowNAIP false)
            (on_app (setNaipYear "2015") (on_app (setShowNAIP true) init))).
  exists (on_app (setShowNAIP true)
            (on_app (setShowNAIP false)
               (on_app (setNaipYear "2015") (on_app (setShowNAIP true) init)))).
  split; [reflexivity|]. split; [reflexivity|].
  split.
  { destruct (year_select (on_app (setShowNAIP true) init))
      as (_ & _ & Hset & _).
    destruct (Hset 4 _ eq_refl) as [Hy _].
    simpl in Hy. inversion Hy. reflexivity. }
  split; [reflexivity|]. split; [reflexivity|].
  split; [reflexivity|]. reflexivity.
Defined.

Lemma metadata_of_label (o : Overlay) :
  exists description source,
    metadata_of LAYER_METADATA (overlay_label o) = Some (description, source).
Proof. destruct o; simpl; eauto. Qed.

(** X16. Every checkbox of the sidebar has an entry in [LAYER_METADATA]
    under its label, so an expanded info panel always shows a description and
    a source, and the NAIP info panel never fails on a missing entry; there
    is no entry under any other label, and no label has two entries. *)
Theorem metadata_covers_toggles :
  (forall sb a c,
      In c (Sidebar_checkboxes sb a) ->
      exists description source,
        LayerToggle_info (cb_label c) true = Some (description, source)) /\
  (forall label, LayerToggle_info label false = None) /\
  (forall sb, NAIP_info sb <> None) /\
  (forall label,
      metadata_of LAYER_METADATA label <> None <->
      exists o, label = overlay_label o) /\
  NoDup (List.map fst LAYER_METADATA).
Proof.
  split.
  { intros sb a c Hc. apply checkbox_is_overlay in Hc. destruct Hc as [o ->].
    simpl. unfold LayerToggle_info. apply metadata_of_label. }
  split; [reflexivity|].
  split.
  { intros sb. unfold NAIP_info.
    destruct (activeTab sb); [|discriminate].
    destruct (showInfoTab sb) as [t|]; [|discriminate].
    destruct (String.eqb t "NAIP Imagery"); discriminate. }
  split.
  { intros label. split.
    - unfold LAYER_METADATA. cbn [metadata_of].
      repeat match goal with
             | |- context [String.eqb ?k label] =>
                 destruct (String.eqb_spec k label) as [<-|_];
                 [intros _; pick_overlay|]
             end.
      intros H. now elim H.
    - intros [o ->]. destruct (metadata_of_label o) as (d & src & ->).
      discriminate. }
  simpl. repeat (constructor; [simpl; intuition discriminate|]). constructor.
Qed.

Lemma metadata_covers_toggles_witness :
  LayerToggle_info "Forest Service Trails" true
  = Some ("Official USFS trail network.", "USFS") /\
  metadata_of LAYER_METADATA "Trails" = None.
Proof.
  destruct metadata_covers_toggles as (Hinfo & _ & _ & Hkeys & _).
  split.
  - destruct (Hinfo Sidebar_init App_init
                    (LayerToggle "Forest Service Trails" true setShowTrails))
      as (d & src & H); [simpl; tauto|].
    reflexivity.
  - destruct (metadata_of LAYER_METADATA "Trails") eqn:E; [|reflexivity].
    exfalso.
    assert (Hsome : metadata_of LAYER_METADATA "Trails" <> None)
      by (rewrite E; discriminate).
    apply Hkeys in Hsome. destruct Hsome as [o Ho].
    destruct o; discriminate Ho.
Defined.

(** X17. In every reachable state [showInfoTab] is [null] or "NAIP
    Imagery"; two clicks on the NAIP info button bring it back to what it was;
    and the NAIP info panel, with the description and the source of the NAIP
    entry, is shown exactly when the Layers tab is active and [showInfoTab] is
    "NAIP Imagery". *)
Theorem naip_info_toggle :
  (forall s, reachable s ->
             showInfoTab (sidebar s) = None \/
             showInfoTab (sidebar s) = Some "NAIP Imagery") /\
  (forall s s1 s2,
      reachable s ->
      step s NaipInfoClick = Some s1 -> step s1 NaipInfoClick = Some s2 ->
      s2 = s) /\
  (forall sb,
      (activeTab sb = Layers /\ showInfoTab sb = Some "NAIP Imagery" ->
       NAIP_info sb
       = Some (Some ("High-resolution aerial photography from the National Agriculture Imagery Program. Available for multiple years.",
                     "USDA"))) /\
      (activeTab sb = About \/ showInfoTab sb <> Some "NAIP Imagery" ->
       NAIP_info sb = Some None)).
Proof.
  assert (Hinv : forall s, reachable s ->
                           showInfoTab (sidebar s) = None \/
                           showInfoTab (sidebar s) = Some "NAIP Imagery").
  { induction 1 as [|s e s' _ IH Hstep]; [left; reflexivity|].
    destruct (step_hooks _ _ Hstep) as (_ & _ & _ & _ & _ & _ & ->).
    destruct e; try exact IH.
    - unfold setActiveTab. destruct t, (activeTab (sidebar s)); exact IH.
    - destruct n; exact IH.
    - unfold onNaipInfoClick.
      destruct (showInfoTab (sidebar s)) as [t|]; [|right; reflexivity].
      destruct (String.eqb t "NAIP Imagery"); [left|right]; reflexivity. }
  split; [exact Hinv|]. split.
  - intros s s1 s2 Hs H1 H2. simpl in H1.
    destruct (is_layers (activeTab (sidebar s))) eqn:Ht; [|discriminate].
    inversion H1; subst s1; clear H1. simpl in H2.
    destruct s as [a m [tab info r ac h]]. simpl in *.
    destruct (Hinv _ Hs) as [Hi | Hi]; simpl in Hi; subst info;
      simpl in H2; rewrite Ht in H2; inversion H2; reflexivity.
  - intros sb. unfold NAIP_info. split.
    + intros [-> ->]. reflexivity.
    + intros [-> | Hne]; [reflexivity|].
      destruct (activeTab sb); [|reflexivity].
      destruct (showInfoTab sb) as [t|]; [|reflexivity].
      destruct (String.eqb_spec t "NAIP Imagery"); [|reflexivity].
      subst t. now elim Hne.
Qed.

Lemma naip_info_toggle_witness :
  exists s1 s2,
    step init NaipInfoClick = Some s1 /\
    showInfoTab (sidebar s1) = Some "NAIP Imagery" /\
    step s1 NaipInfoClick = Some s2 /\
    s2 = init.
Proof.
  destruct naip_info_toggle as (_ & Htwice & _).
  exists (on_sidebar onNaipInfoClick init).
  exists (on_sidebar onNaipInfoClick (on_sidebar onNaipInfoClick init)).
  split; [reflexivity|]. split; [reflexivity|]. split; [reflexivity|].
  apply (Htwice init (on_sidebar onNaipInfoClick init));
    [constructor | reflexivity | reflexivity].
Defined.

(** X18. At most one NAIP source is on the map, the one of the selected
    year: a source whose id starts with "naip-" is on the map only if NAIP
    imagery is switched on and the style has loaded, and then its id is
    "naip-" followed by the selected year; likewise for the NAIP layer. *)
Theorem naip_selected_year_only (a : AppState) (m : MapState) :
  (forall id,
      In id (rendered_source_ids a m) ->
      String.prefix "naip-" id = true ->
      id = ("naip-" ++ naipYear a)%string /\
      showNAIP a = true /\ isStyleLoaded m = true) /\
  (forall id,
      In id (rendered_layer_ids a m) ->
      String.prefix "naip-" id = true ->
      id = ("naip-layer-" ++ naipYear a)%string /\
      showNAIP a = true /\ isStyleLoaded m = true) /\
  (forall year,
      In ("naip-" ++ year)%string (rendered_source_ids a m) ->
      year = naipYear a).
Proof.
  assert (Hsrc : forall id,
             In id (rendered_source_ids a m) ->
             String.prefix "naip-" id = true ->
             id = ("naip-" ++ naipYear a)%string /\
             showNAIP a = true /\ isStyleLoaded m = true).
  { intros id Hin Hpre.
    assert (Hid : id = ("naip-" ++ naipYear a)%string).
    { apply (sublist_In _ (rendered_sources_sublist a m)) in Hin.
      unfold all_source_ids in Hin. simpl in Hin.
      repeat (destruct Hin as [<- | Hin]; [try discriminate Hpre|]);
        try contradiction; reflexivity. }
    split; [exact Hid|]. subst id.
    apply mem_In in Hin.
    rewrite (source_mem a m NAIP _ (or_introl eq_refl)) in Hin.
    apply andb_true_iff in Hin. destruct Hin as [Hf Hr].
    apply overlay_ready_spec in Hr. split; [exact Hf|apply Hr]. }
  split; [exact Hsrc|]. split.
  - intros id Hin Hpre.
    assert (Hid : id = ("naip-layer-" ++ naipYear a)%string).
    { apply (sublist_In _ (rendered_layers_sublist a m)) in Hin.
      unfold all_layer_ids in Hin. simpl in Hin.
      repeat (destruct Hin as [<- | Hin]; [try discriminate Hpre|]);
        try contradiction; reflexivity. }
    split; [exact Hid|]. subst id.
    apply mem_In in Hin.
    rewrite (layer_mem a m NAIP _ (or_introl eq_refl)) in Hin.
    apply andb_true_iff in Hin. destruct Hin as [Hf Hr].
    apply overlay_ready_spec in Hr. split; [exact Hf|apply Hr].
  - intros year Hin.
    destruct (Hsrc _ Hin) as [Heq _].
    + simpl. now destruct year.
    + simpl in Heq. now inversion Heq.
Qed.

Lemma naip_selected_year_only_witness :
  let a := setNaipYear "2015" (setShowNAIP true App_init) in
  let m := onLoad Map_init in
  In "naip-2015" (rendered_source_ids a m) /\
  ~ In "naip-2023" (rendered_source_ids a m).
Proof.
  intros a m.
  assert (Hin : In "naip-2015" (rendered_source_ids a m)).
  { apply mem_In. reflexivity. }
  split; [exact Hin|].
  intros H.
  destruct (naip_selected_year_only a m) as (_ & _ & Hyear).
  specialize (Hyear "2023" H). discriminate Hyear.
Defined.

(** X19. The Measure button tells what a map click does: while its title is
    "Stop Measuring" a click on the map adds a vertex and leaves the popup
    alone; while it is "Measure Distance" a click on the map adds no vertex;
    and a click on the button swaps the two titles. *)
Theorem measure_button_announces (s s' : State) (ev : ClickEvent) :
  step s (MapClick ev) = Some s' ->
  (fst (Measure_button (map s)) = "Stop Measuring" ->
   measurementPoints (map s')
   = measurementPoints (map s) ++ [[lng (lngLat ev); lat (lngLat ev)]] /\
   popupInfo (map s') = popupInfo (map s)) /\
  (fst (Measure_button (map s)) = "Measure Distance" ->
   measurementPoints (map s') = measurementPoints (map s)) /\
  (fst (Measure_button (map s)) = "Stop Measuring" \/
   fst (Measure_button (map s)) = "Measure Distance") /\
  fst (Measure_button (map s')) = fst (Measure_button (map s)) /\
  fst (Measure_button (onMeasureClick (map s)))
  <> fst (Measure_button (map s)).
Proof.
  simpl. intros H; inversion H; subst s'; clear H. simpl.
  unfold Measure_button. cbn [fst].
  destruct (onMeasureClick_frame (map s)) as [_ ->].
  destruct (isMeasuring (map s)) eqn:Hm.
  - destruct (onClick_measuring_frame ev (map s) Hm) as (-> & -> & ->).
    split; [intros _; split; reflexivity|].
    split; [intros H; discriminate H|].
    split; [left; reflexivity|].
    split; [reflexivity|discriminate].
  - destruct (onClick_inspecting ev (map s) Hm) as (-> & -> & _).
    split; [intros H; discriminate H|].
    split; [intros _; reflexivity|].
    split; [right; reflexivity|].
    split; [reflexivity|discriminate].
Qed.

Lemma measure_button_announces_witness :
  fst (Measure_button (map measuring_two_points)) = "Stop Measuring" /\
  exists s',
    step measuring_two_points (MapClick (click_on named_trail here)) = Some s' /\
    popupInfo (map s') = popupInfo (map measuring_two_points).
Proof.
  split; [reflexivity|].
  exists (on_map (onClick (click_on named_trail here)) measuring_two_points).
  split; [reflexivity|].
  destruct (@measure_button_announces measuring_two_points _
              (click_on named_trail here) eq_refl) as (Hstop & _).
  apply (Hstop eq_refl).
Defined.
